(** * The task executor of the browser extension

    A shallow embedding of [class TaskExecutor] of the browser
    extension (browser-extension/src), the admission-controlled
    dispatcher that receives [task_request] messages on a WebSocket,
    runs at most [maxConcurrentTasks] of them at a time, queues the
    others, and answers each with a [task_result] message.

    JavaScript runs one job at a time: a job (the delivery of a socket
    message, or the settlement of a promise handed out by the browser)
    runs to completion, together with the promise reactions it makes
    ready, before the next job starts.  The embedding follows that
    structure.  A handler is a tree of the browser calls it awaits; an
    activation of [handleTaskRequest] that is waiting at
    [await this.executeTask(task)] is kept in the executor state with
    what it is waiting for; and one job is one call of [step].

    The socket is [this.socket]: its [readyState], which the network
    changes and which [initializeWebSocket] resets when the timer of
    [onclose] fires, and the list of the texts that [socket.send]
    took.  [send] raises on a socket that is still connecting; a
    socket that is closing or closed takes the text and drops it. *)

From stdpp Require Import gmap strings list fin_maps pretty.

Local Open Scope string_scope.
Local Open Scope Z_scope.

(** ** JavaScript values *)

(** The values that reach the executor: what [JSON.parse] builds,
    [undefined] (a missing property), and host objects such as the
    [Response] of [fetch], which the executor only passes along.
    Numbers are the safe integers, those that a number holds exactly
    and prints digit by digit ([Number.isSafeInteger]); fractions and
    larger numbers are outside the model, and no branch of the
    executor computes with a number. *)
#[warnings="-register-all"] Inductive JSValue : Type :=
| JUndefined
| JNull
| JBool (b : bool)
| JNum (n : Z)
| JStr (s : string)
| JArr (items : list JSValue)
| JObj (props : list (string * JSValue))
| JHost (handle : nat).

(** Every exception of this program is an [Error] instance: made by
    [new Error(...)], raised by the runtime as a [TypeError] or
    [SyntaxError], or delivered by the browser as the reason of a
    rejected promise. *)
Record JSError : Type := mkError { error_name : string; error_message : string }.

Inductive Completion (A : Type) : Type :=
| Normal (a : A)
| Thrown (e : JSError).
Arguments Normal {A} a.
Arguments Thrown {A} e.

Definition bindC {A B : Type} (c : Completion A) (f : A -> Completion B) : Completion B :=
  match c with
  | Normal a => f a
  | Thrown e => Thrown e
  end.

(** [try { body } catch (error) { handler }] *)
Definition tryCatch {A : Type} (body : Completion A) (handler : JSError -> Completion A)
  : Completion A :=
  match body with
  | Normal a => Normal a
  | Thrown e => handler e
  end.

Definition nullish (v : JSValue) : bool :=
  match v with
  | JUndefined | JNull => true
  | _ => false
  end.

Definition ToBoolean (v : JSValue) : bool :=
  match v with
  | JUndefined | JNull => false
  | JBool b => b
  | JNum n => negb (n =? 0)
  | JStr s => negb (String.eqb s "")
  | JArr _ | JObj _ | JHost _ => true
  end.

Definition TypeError (message : string) : JSError := mkError "TypeError" message.
Definition Error (message : string) : JSError := mkError "Error" message.
Definition SyntaxError (message : string) : JSError := mkError "SyntaxError" message.

Fixpoint lookup_prop (k : string) (props : list (string * JSValue)) : JSValue :=
  match props with
  | [] => JUndefined
  | (k', v) :: rest => if String.eqb k' k then v else lookup_prop k rest
  end.

(** The object has a property named [k] of its own. *)
Definition has_own (k : string) (props : list (string * JSValue)) : bool :=
  existsb (fun p => String.eqb p.1 k) props.

(** [Number.isSafeInteger(n)] *)
Definition isSafeInteger (n : Z) : bool := Z.abs n <? 2 ^ 53.

(** The values whose text [ToString] gives: no number beyond the safe
    integers, which print rounded or with an exponent, and no host
    object, which prints the name of its class.  An object prints
    without a look at what its properties hold. *)
Fixpoint printable (v : JSValue) : bool :=
  match v with
  | JNum n => isSafeInteger n
  | JArr items =>
      (fix each (l : list JSValue) : bool :=
         match l with
         | [] => true
         | x :: rest => printable x && each rest
         end) items
  | JHost _ => false
  | _ => true
  end.

(** [String(v)], as a template literal applies it, for a [printable]
    value.  An array joins the texts of its items, with nothing for
    [undefined] and [null].  An object made by [JSON.parse] inherits
    [toString] from [Object.prototype], unless it has a [toString]
    property of its own: that one is no function, nor is what
    [valueOf] then gives a primitive, and the conversion raises a
    [TypeError] (the wording of the message is the engine's). *)
Fixpoint ToString (v : JSValue) : Completion string :=
  match v with
  | JUndefined => Normal "undefined"
  | JNull => Normal "null"
  | JBool true => Normal "true"
  | JBool false => Normal "false"
  | JNum n => Normal (pretty n)
  | JStr s => Normal s
  | JArr items =>
      (fix join (l : list JSValue) : Completion string :=
         match l with
         | [] => Normal ""
         | x :: rest =>
             bindC (if nullish x then Normal "" else ToString x) (fun sx =>
             match rest with
             | [] => Normal sx
             | _ :: _ => bindC (join rest) (fun sr => Normal (sx ++ "," ++ sr))
             end)
         end) items
  | JObj props =>
      if has_own "toString" props
      then Thrown (TypeError "Cannot convert object to primitive value")
      else Normal "[object Object]"
  | JHost _ => Normal "[object Object]"
  end.

(** [text] is the text of [v], a value whose text the model gives. *)
Definition prints (v : JSValue) (text : string) : Prop :=
  printable v = true /\ ToString v = Normal text.

(** ["undefined"] or ["null"], in the message of a [TypeError]. *)
Definition nullish_text (v : JSValue) : string :=
  match v with
  | JNull => "null"
  | _ => "undefined"
  end.

(** [v.k] for a value that is neither [undefined] nor [null].  The
    property names the executor reads are not inherited ones, so a
    primitive, an array or a host object answers [undefined]. *)
Definition member (v : JSValue) (k : string) : JSValue :=
  match v with
  | JObj props => lookup_prop k props
  | _ => JUndefined
  end.

(** [v.k]: reading a property of [undefined] or [null] raises a
    [TypeError] (the wording of the message is the engine's). *)
Definition get (v : JSValue) (k : string) : Completion JSValue :=
  if nullish v
  then Thrown (TypeError ("Cannot read properties of " ++ nullish_text v
                          ++ " (reading '" ++ k ++ "')"))
  else Normal (member v k).

(** [const { k1, k2, ... } = v]: an object pattern raises a
    [TypeError] on [undefined] and [null]. *)
Definition destructure (v : JSValue) : Completion JSValue :=
  if nullish v
  then Thrown (TypeError ("Cannot destructure '" ++ nullish_text v ++ "' as it is "
                          ++ nullish_text v ++ "."))
  else Normal v.

(** [a === "literal"] *)
Definition is_string (v : JSValue) (lit : string) : bool :=
  match v with
  | JStr s => String.eqb s lit
  | _ => false
  end.

(** A parameter declared [p: any = null]: an argument that is absent
    or [undefined] takes the default. *)
Definition default_null (arg : JSValue) : JSValue :=
  match arg with
  | JUndefined => JNull
  | v => v
  end.

(** [JSON.stringify], up to the text: the value that the text written
    denotes.  A property whose value is [undefined] is left out, an
    [undefined] array item is written [null], a host object has no
    enumerable property of its own. *)
Fixpoint JSON_stringify (v : JSValue) : JSValue :=
  match v with
  | JArr items =>
      JArr ((fix each (l : list JSValue) : list JSValue :=
               match l with
               | [] => []
               | x :: rest =>
                   (match x with JUndefined => JNull | _ => JSON_stringify x end)
                   :: each rest
               end) items)
  | JObj props =>
      JObj ((fix each (l : list (string * JSValue)) : list (string * JSValue) :=
               match l with
               | [] => []
               | (k, x) :: rest =>
                   match x with
                   | JUndefined => each rest
                   | _ => (k, JSON_stringify x) :: each rest
                   end
               end) props)
  | JHost _ => JObj []
  | _ => v
  end.

(** The payload of a socket [message] event: a text that is not JSON,
    or the JSON text of a value. *)
Inductive WireData : Type :=
| NotJSON (text : string)
| JSONText (v : JSValue).

Definition JSON_parse (data : WireData) : Completion JSValue :=
  match data with
  | NotJSON text => Thrown (SyntaxError ("Unexpected token in JSON: " ++ text))
  | JSONText v => Normal v
  end.

(** ** Handlers *)

(** The functions shipped to the page by [executeInPage]; the message
    carries [func.toString()], the source text of one of these. *)
Inductive PageFunction : Type :=
| ClickElement
| InputValue
| ScrollIntoView
| CollectText
| ReadAttributes.

(** The calls into the browser that a handler awaits. *)
Inductive PlatformCall : Type :=
| tabs_query (queryInfo : JSValue)
| tabs_sendMessage (tabId : JSValue) (func : PageFunction) (arguments : list JSValue)
| fetch (url method headers body : JSValue)
| response_json (response : JSValue)
| windows_create (createData : JSValue)
| notifications_create (options : JSValue)
| tabs_captureVisibleTab.

(** How an awaited promise settles. *)
Inductive Outcome : Type :=
| Resolved (v : JSValue)
| Rejected (e : JSError).

(** An [async] function body: it returns, throws, or awaits a call of
    the browser and goes on with its outcome. *)
Inductive Async : Type :=
| Return (v : JSValue)
| Throw (e : JSError)
| Await (call : PlatformCall) (resume : Outcome -> Async).

(** [return await call] *)
Definition returnAwait (call : PlatformCall) : Async :=
  Await call (fun o => match o with
                       | Resolved v => Return v
                       | Rejected e => Throw e
                       end).

Definition liftC {A : Type} (c : Completion A) (k : A -> Async) : Async :=
  match c with
  | Normal v => k v
  | Thrown e => Throw e
  end.

Notation "'let?' x ':=' c 'in' k" := (liftC c (fun x => k))
  (at level 10, x name, c at level 99, k at level 200, only parsing).

(** [const [tab] = tabs]: the first item of an array, the first
    character of a text, and a [TypeError] for what cannot be iterated
    (the wording of the message is the engine's). *)
Definition first_of (tabs : JSValue) : Completion JSValue :=
  match tabs with
  | JArr [] => Normal JUndefined
  | JArr (tab :: _) => Normal tab
  | JStr "" => Normal JUndefined
  | JStr (String c _) => Normal (JStr (String c ""))
  | _ => Thrown (TypeError "tabs is not iterable")
  end.

Definition executeInPage (func : PageFunction) (args : list JSValue) : Async :=
  Await (tabs_query (JObj [("active", JBool true); ("currentWindow", JBool true)]))
    (fun o =>
       match o with
       | Rejected e => Throw e
       | Resolved tabs =>
           let? tab := first_of tabs in
           let? tab_id := get tab "id" in
           if negb (ToBoolean tab_id) then Throw (Error "No active tab")
           else returnAwait (tabs_sendMessage tab_id func args)
       end).

Definition executeDOMTask (task : JSValue) : Async :=
  let? parameters := get task "parameters" in
  let? parameters := destructure parameters in
  let action := member parameters "action" in
  let selector := member parameters "selector" in
  let value := member parameters "value" in
  if is_string action "CLICK" then executeInPage ClickElement [selector]
  else if is_string action "INPUT" then executeInPage InputValue [selector; value]
  else if is_string action "SCROLL" then executeInPage ScrollIntoView [selector]
  else
    let? text := ToString action in
    Throw (Error ("Unknown DOM action: " ++ text)).

Definition executeNetworkTask (task : JSValue) : Async :=
  let? parameters := get task "parameters" in
  let? parameters := destructure parameters in
  let url := member parameters "url" in
  let method := member parameters "method" in
  let headers := member parameters "headers" in
  let body := member parameters "body" in
  Await (fetch url method headers (JSON_stringify body))
    (fun o =>
       match o with
       | Rejected e => Throw e
       | Resolved response => returnAwait (response_json response)
       end).

Definition executeUITask (task : JSValue) : Async :=
  let? outer := get task "parameters" in
  let? outer := destructure outer in
  let action := member outer "action" in
  let parameters := member outer "parameters" in
  if is_string action "OPEN_POPUP" then
    let? url := get parameters "url" in
    let? width := get parameters "width" in
    let? height := get parameters "height" in
    returnAwait (windows_create
                   (JObj [("url", url); ("type", JStr "popup");
                          ("width", width); ("height", height)]))
  else if is_string action "SHOW_NOTIFICATION" then
    let? icon := get parameters "icon" in
    let? title := get parameters "title" in
    let? message := get parameters "message" in
    returnAwait (notifications_create
                   (JObj [("type", JStr "basic"); ("iconUrl", icon);
                          ("title", title); ("message", message)]))
  else
    let? text := ToString action in
    Throw (Error ("Unknown UI action: " ++ text)).

Definition executeDataExtractionTask (task : JSValue) : Async :=
  let? parameters := get task "parameters" in
  let? parameters := destructure parameters in
  let type := member parameters "type" in
  let selector := member parameters "selector" in
  if is_string type "TEXT" then executeInPage CollectText [selector]
  else if is_string type "ATTRIBUTES" then
    executeInPage ReadAttributes [selector; member parameters "attributes"]
  else if is_string type "SCREENSHOT" then returnAwait tabs_captureVisibleTab
  else
    let? text := ToString type in
    Throw (Error ("Unknown extraction type: " ++ text)).

Definition executeTask (task : JSValue) : Async :=
  let? type := get task "type" in
  if is_string type "DOM_MANIPULATION" then executeDOMTask task
  else if is_string type "NETWORK_INTERCEPT" then executeNetworkTask task
  else if is_string type "UI_AUTOMATION" then executeUITask task
  else if is_string type "DATA_EXTRACTION" then executeDataExtractionTask task
  else
    let? text := ToString type in
    Throw (Error ("Unknown task type: " ++ text)).

(** ** The executor *)

Record TaskExecutorConfig : Type := mkConfig {
  maxConcurrentTasks : Z;
  defaultTimeout : Z;
  retryAttempts : Z
}.

(** An activation of [handleTaskRequest] that waits at
    [await this.executeTask(task)]: its task, the call of the browser
    its handler awaits and how the handler goes on, and the number of
    activations of [handleTaskRequest] that wait for this one to
    return (the chain of [await this.handleTaskRequest(nextTask)]
    above it). *)
Record Suspended : Type := mkSuspended {
  s_task : JSValue;
  s_depth : nat;
  s_call : PlatformCall;
  s_resume : Outcome -> Async
}.

(** [WebSocket.readyState] *)
Inductive ReadyState : Type :=
| CONNECTING
| OPEN
| CLOSING
| CLOSED.

(** The fields of the class and what hangs on them.  [readyState] is
    that of [this.socket]; [sent] is what [this.socket.send] took,
    oldest first (an open socket transmits it, a closing or closed one
    drops it); [reconnects] counts the timers that [onclose] has set
    and that have not fired; [suspended] holds the waiting activations
    under the number each got when it started. *)
Record TaskExecutor : Type := mkTaskExecutor {
  config : TaskExecutorConfig;
  activeTaskCount : Z;
  taskQueue : list JSValue;
  sent : list JSValue;
  suspended : gmap nat Suspended;
  activations : nat;
  readyState : ReadyState;
  reconnects : nat
}.

(** What a run does, in the order it does it. *)
Inductive Label : Type :=
| Received (task : JSValue)                        (* onmessage hands a task over *)
| Queued (depth : nat) (task : JSValue)            (* taskQueue.push(task) *)
| Started (i depth : nat) (active : Z) (task : JSValue)
                                                   (* activeTaskCount++, now [active] *)
| Settled (i : nat) (o : Outcome)                  (* executeTask(task) settled *)
| Sent (i : nat) (message : JSValue)               (* socket.send *)
| Finished (i : nat)                               (* activeTaskCount-- *)
| Shifted (task : JSValue)                         (* taskQueue.shift() *)
| Escaped (e : JSError).                           (* an exception left the handler *)

(** The jobs of the event loop that concern the executor: the socket
    delivers a message; the promise that activation [i] awaits
    settles; the socket opens; its closing handshake starts; it
    closes, or fails to connect, and [onclose] runs; a timer of
    [onclose] fires.  The browser delivers messages on an open socket
    only; [onmessage] below is what the handler does when it is
    called. *)
Inductive Event : Type :=
| onmessage (data : WireData)
| settle (i : nat) (o : Outcome)
| onopen
| closing
| onclose
| reconnect.

Definition Step : Type := (TaskExecutor * list Label)%type.

Definition after (ls : list Label) (r : Step) : Step := (r.1, (ls ++ r.2)%list).

Definition set_queue (q : list JSValue) (ex : TaskExecutor) : TaskExecutor :=
  mkTaskExecutor (config ex) (activeTaskCount ex) q (sent ex) (suspended ex) (activations ex)
    (readyState ex) (reconnects ex).

Definition set_active (n : Z) (ex : TaskExecutor) : TaskExecutor :=
  mkTaskExecutor (config ex) n (taskQueue ex) (sent ex) (suspended ex) (activations ex)
    (readyState ex) (reconnects ex).

Definition set_suspended (m : gmap nat Suspended) (ex : TaskExecutor) : TaskExecutor :=
  mkTaskExecutor (config ex) (activeTaskCount ex) (taskQueue ex) (sent ex) m (activations ex)
    (readyState ex) (reconnects ex).

(** The socket of the executor is in state [state], and [timers]
    timers of [onclose] wait. *)
Definition set_socket (state : ReadyState) (timers : nat) (ex : TaskExecutor)
  : TaskExecutor :=
  mkTaskExecutor (config ex) (activeTaskCount ex) (taskQueue ex) (sent ex) (suspended ex)
    (activations ex) state timers.

(** The socket has taken [message]. *)
Definition socket_send (message : JSValue) (ex : TaskExecutor) : TaskExecutor :=
  mkTaskExecutor (config ex) (activeTaskCount ex) (taskQueue ex)
    (sent ex ++ [message])%list (suspended ex) (activations ex)
    (readyState ex) (reconnects ex).

(** The exception of [send] on a socket that is still connecting, a
    [DOMException] (the wording of the message is the browser's). *)
Definition InvalidStateError : JSError :=
  mkError "InvalidStateError"
    "Failed to execute 'send' on 'WebSocket': Still in CONNECTING state.".

Definition connecting (ex : TaskExecutor) : bool :=
  match readyState ex with
  | CONNECTING => true
  | _ => false
  end.

(** [this.socket.send(message)] *)
Definition send (message : JSValue) (ex : TaskExecutor) : Completion TaskExecutor :=
  if connecting ex then Thrown InvalidStateError else Normal (socket_send message ex).

(** [this.activeTaskCount++] of a new activation, which takes the
    next number. *)
Definition begin_activation (ex : TaskExecutor) : TaskExecutor :=
  mkTaskExecutor (config ex) (activeTaskCount ex + 1) (taskQueue ex) (sent ex)
    (suspended ex) (S (activations ex)) (readyState ex) (reconnects ex).

Section Executor.

(** [now n] is the text of [new Date().toISOString()] in the message
    that the socket takes as its [n]-th. *)
Variable now : nat -> string.

Definition task_result (taskId : JSValue) (status : string) (result error_field : JSValue)
    (timestamp : string) : JSValue :=
  JObj [("message_type", JStr "task_result");
        ("content", JObj [("task_id", taskId);
                          ("status", JStr status);
                          ("result", result);
                          ("error", error_field);
                          ("timestamp", JStr timestamp)])].

(** [sendTaskResult(taskId, status, result = null, error = null)] *)
Definition sendTaskResult (ex : TaskExecutor) (i : nat) (taskId : JSValue) (status : string)
    (result : JSValue) (error : option JSError) : Completion Step :=
  let result := default_null result in
  let error_field := match error with
                     | Some e => JStr (error_message e)
                     | None => JNull
                     end in
  let message := JSON_stringify
                   (task_result taskId status result error_field
                      (now (length (sent ex)))) in
  bindC (send message ex) (fun ex => Normal (ex, [Sent i message])).

(** The [try]/[catch] of [handleTaskRequest], from the point where
    [await this.executeTask(task)] has settled with [o]. *)
Definition report (ex : TaskExecutor) (i : nat) (task : JSValue) (o : Outcome)
  : Completion Step :=
  let failed (error : JSError) : Completion Step :=
    bindC (get task "id") (fun id =>
    sendTaskResult ex i id "failed" JNull (Some error)) in
  match o with
  | Resolved result =>
      tryCatch
        (bindC (get task "id") (fun id =>
         sendTaskResult ex i id "completed" result None))
        failed
  | Rejected error => failed error
  end.

(** [handleTaskRequest(task)] up to its [await]; [continue] is the
    rest of the function, entered at once when the handler settled
    without awaiting the browser. *)
Definition handleTaskRequest_with
    (continue : nat -> TaskExecutor -> nat -> JSValue -> Outcome -> Step)
    (depth : nat) (ex : TaskExecutor) (task : JSValue) : Step :=
  if activeTaskCount ex >=? maxConcurrentTasks (config ex)
  then (set_queue (taskQueue ex ++ [task])%list ex, [Queued depth task])
  else
    let i := activations ex in
    let ex := begin_activation ex in
    after [Started i depth (activeTaskCount ex) task]
      match executeTask task with
      | Await call resume =>
          (set_suspended (<[i := mkSuspended task depth call resume]> (suspended ex)) ex, [])
      | Return v => continue depth ex i task (Resolved v)
      | Throw e => continue depth ex i task (Rejected e)
      end.

(** The rest of [handleTaskRequest(task)] once the handler has settled
    with [o]: report, [this.activeTaskCount--], and when the queue is
    not empty take its head and call [handleTaskRequest] on it.
    [queue] is [taskQueue ex]; the recursion of the source is on it. *)
Fixpoint settled_from (queue : list JSValue) (depth : nat) (ex : TaskExecutor) (i : nat)
    (task : JSValue) (o : Outcome) {struct queue} : Step :=
  after [Settled i o]
    match report ex i task o with
    | Thrown e => (ex, [Escaped e])
    | Normal (ex, ls) =>
        let ex := set_active (activeTaskCount ex - 1) ex in
        after (ls ++ [Finished i])%list
          match queue with
          | [] => (ex, [])
          | nextTask :: rest =>
              after [Shifted nextTask]
                (handleTaskRequest_with (settled_from rest) (S depth)
                   (set_queue rest ex) nextTask)
          end
    end.

Definition settled (depth : nat) (ex : TaskExecutor) (i : nat) (task : JSValue) (o : Outcome)
  : Step :=
  settled_from (taskQueue ex) depth ex i task o.

Definition handleTaskRequest (depth : nat) (ex : TaskExecutor) (task : JSValue) : Step :=
  handleTaskRequest_with settled depth ex task.

(** [this.socket.onmessage] *)
Definition socket_onmessage (ex : TaskExecutor) (data : WireData) : Step :=
  match bindC (JSON_parse data) (fun message =>
        bindC (get message "message_type") (fun message_type =>
        if is_string message_type "task_request"
        then bindC (get message "content") (fun content => Normal (Some content))
        else Normal None)) with
  | Thrown e => (ex, [Escaped e])
  | Normal None => (ex, [])
  | Normal (Some content) => after [Received content] (handleTaskRequest 0 ex content)
  end.

(** The promise that activation [i] awaits settles with [o]: its
    handler goes on, and either awaits the browser again or settles,
    in which case [handleTaskRequest] resumes after its [await]. *)
Definition resume (ex : TaskExecutor) (i : nat) (o : Outcome) : Step :=
  match suspended ex !! i with
  | None => (ex, [])
  | Some s =>
      match s_resume s o with
      | Await call k =>
          (set_suspended (<[i := mkSuspended (s_task s) (s_depth s) call k]> (suspended ex)) ex,
           [])
      | Return v =>
          settled (s_depth s) (set_suspended (delete i (suspended ex)) ex) i (s_task s)
            (Resolved v)
      | Throw e =>
          settled (s_depth s) (set_suspended (delete i (suspended ex)) ex) i (s_task s)
            (Rejected e)
      end
  end.

(** [this.socket.onclose]: [setTimeout(() => this.initializeWebSocket(), 5000)] *)
Definition socket_onclose (ex : TaskExecutor) : TaskExecutor :=
  set_socket CLOSED (S (reconnects ex)) ex.

(** [initializeWebSocket()]: [this.socket] is a new socket, which is
    connecting. *)
Definition initializeWebSocket (ex : TaskExecutor) : TaskExecutor :=
  set_socket CONNECTING (reconnects ex) ex.

(** One job.  A socket opens once, from connecting; its closing
    handshake starts while it is open; it closes once; and a timer
    fires when one waits. *)
Definition step (ex : TaskExecutor) (ev : Event) : Step :=
  match ev with
  | onmessage data => socket_onmessage ex data
  | settle i o => resume ex i o
  | onopen =>
      match readyState ex with
      | CONNECTING => (set_socket OPEN (reconnects ex) ex, [])
      | _ => (ex, [])
      end
  | closing =>
      match readyState ex with
      | OPEN => (set_socket CLOSING (reconnects ex) ex, [])
      | _ => (ex, [])
      end
  | onclose =>
      match readyState ex with
      | CLOSED => (ex, [])
      | _ => (socket_onclose ex, [])
      end
  | reconnect =>
      match reconnects ex with
      | O => (ex, [])
      | S timers => (initializeWebSocket (set_socket (readyState ex) timers ex), [])
      end
  end.

Fixpoint run (ex : TaskExecutor) (evs : list Event) : Step :=
  match evs with
  | [] => (ex, [])
  | ev :: rest =>
      let r := step ex ev in
      after r.2 (run r.1 rest)
  end.

(** [new TaskExecutor(config)]: the constructor calls
    [initializeWebSocket], and the socket is connecting. *)
Definition new_TaskExecutor (cfg : TaskExecutorConfig) : TaskExecutor :=
  mkTaskExecutor cfg 0 [] [] ∅ 0 CONNECTING 0.

End Executor.

(** [export const taskExecutor = new TaskExecutor({...})] *)
Definition taskExecutor_config : TaskExecutorConfig := mkConfig 5 30000 3.

(** ** Derived notions *)

(** The message that reports outcome [o] of the task whose [id] is
    [id], on an executor that has sent [sent ex] so far. *)
Definition result_message (now : nat -> string) (ex : TaskExecutor) (id : JSValue)
    (o : Outcome) : JSValue :=
  match o with
  | Resolved result =>
      JSON_stringify
        (task_result id "completed" (default_null result) JNull (now (length (sent ex))))
  | Rejected error =>
      JSON_stringify
        (task_result id "failed" JNull (JStr (error_message error)) (now (length (sent ex))))
  end.

(** [if (this.taskQueue.length > 0) { ... }], the end of
    [handleTaskRequest] in an activation at [depth]. *)
Definition drainQueue (now : nat -> string) (depth : nat) (ex : TaskExecutor) : Step :=
  match taskQueue ex with
  | [] => (ex, [])
  | nextTask :: rest =>
      after [Shifted nextTask]
        (handleTaskRequest now (S depth) (set_queue rest ex) nextTask)
  end.

Definition full (ex : TaskExecutor) : Prop :=
  maxConcurrentTasks (config ex) <= activeTaskCount ex.

(** ** The admission bound *)

Definition started_within (cfg : TaskExecutorConfig) (l : Label) : Prop :=
  match l with
  | Started _ _ n _ => n <= maxConcurrentTasks cfg
  | _ => True
  end.

(** The counter covers the waiting activations, with [slack] more
    that are running, and is within the bound; so was every
    [activeTaskCount++] so far. *)
Definition bounded (cfg : TaskExecutorConfig) (slack : Z) (ex : TaskExecutor)
    (tr : list Label) : Prop :=
  config ex = cfg /\
  Z.of_nat (size (suspended ex)) + slack <= activeTaskCount ex /\
  activeTaskCount ex <= maxConcurrentTasks cfg /\
  Forall (started_within cfg) tr.

(** ** One result for each task *)

(** The labels that belong to activation [i]. *)
Definition about (i : nat) (l : Label) : bool :=
  match l with
  | Started j _ _ _ | Settled j _ | Sent j _ | Finished j => Nat.eqb j i
  | _ => false
  end.

Definition history (i : nat) (tr : list Label) : list Label := List.filter (about i) tr.

Definition sent_message (l : Label) : option JSValue :=
  match l with
  | Sent _ m => Some m
  | _ => None
  end.

(** The messages that activation [i] sent, in order. *)
Definition results_of (i : nat) (tr : list Label) : list JSValue :=
  omap sent_message (history i tr).

Definition content_field (m : JSValue) (k : string) : JSValue :=
  member (member m "content") k.

Definition status_of (m : JSValue) : JSValue := content_field m "status".

Definition outcome_status (o : Outcome) : string :=
  match o with
  | Resolved _ => "completed"
  | Rejected _ => "failed"
  end.

(** The whole history of an activation that is over: it started, its
    handler settled, and either the report raised (reading [task.id],
    or [send] on a connecting socket) and nothing more happened, or it
    sent one message, whose status is that of the outcome, and
    decremented the counter. *)
Definition concluded (i : nat) (h : list Label) : Prop :=
  exists d n t o,
    h = [Started i d n t; Settled i o] \/
    (exists id m, get t "id" = Normal id /\
                  status_of m = JStr (outcome_status o) /\
                  h = [Started i d n t; Settled i o; Sent i m; Finished i]).

(** What the trace says of activation [j], given the waiting
    activations and the number of activations so far. *)
Definition tracked (waiting : gmap nat Suspended) (count : nat) (tr : list Label) (j : nat)
  : Prop :=
  match waiting !! j with
  | Some s => (j < count)%nat /\ exists n, history j tr = [Started j (s_depth s) n (s_task s)]
  | None => if decide (j < count)%nat then concluded j (history j tr) else history j tr = []
  end.

Definition all_tracked (ex : TaskExecutor) (tr : list Label) : Prop :=
  forall j, tracked (suspended ex) (activations ex) tr j.

Definition all_tracked_but (i d : nat) (t : JSValue) (ex : TaskExecutor) (tr : list Label)
  : Prop :=
  suspended ex !! i = None /\ (i < activations ex)%nat /\
  (exists n, history i tr = [Started i d n t]) /\
  forall j, j <> i -> tracked (suspended ex) (activations ex) tr j.

(** ** First in, first out *)

(** The tasks handed over by [onmessage], in order. *)
Definition received_tasks (tr : list Label) : list JSValue :=
  omap (fun l => match l with Received t => Some t | _ => None end) tr.

(** The tasks appended to the queue, in order. *)
Definition queued_tasks (tr : list Label) : list JSValue :=
  omap (fun l => match l with Queued _ t => Some t | _ => None end) tr.

(** The tasks taken from the head of the queue, in order. *)
Definition shifted_tasks (tr : list Label) : list JSValue :=
  omap (fun l => match l with Shifted t => Some t | _ => None end) tr.

(** The tasks started, in order. *)
Definition started_tasks (tr : list Label) : list JSValue :=
  omap (fun l => match l with Started _ _ _ t => Some t | _ => None end) tr.

(** The tasks started by the [handleTaskRequest(nextTask)] of an
    activation that finished, in order. *)
Definition started_from_queue (tr : list Label) : list JSValue :=
  omap (fun l => match l with Started _ (S _) _ t => Some t | _ => None end) tr.

Definition in_order (ex : TaskExecutor) (tr : list Label) : Prop :=
  queued_tasks tr = (started_from_queue tr ++ taskQueue ex)%list /\
  shifted_tasks tr = started_from_queue tr /\
  received_tasks tr = (started_tasks tr ++ taskQueue ex)%list.

(** Between jobs: within the bound, and at the bound while tasks
    wait. *)
Definition fifo (cfg : TaskExecutorConfig) (ex : TaskExecutor) (tr : list Label) : Prop :=
  config ex = cfg /\ in_order ex tr /\
  activeTaskCount ex <= maxConcurrentTasks cfg /\
  (taskQueue ex <> [] -> maxConcurrentTasks cfg <= activeTaskCount ex).

(** Right after [activeTaskCount--]: one slot is free, and only one
    while tasks wait. *)
Definition fifo_draining (cfg : TaskExecutorConfig) (ex : TaskExecutor) (tr : list Label)
  : Prop :=
  config ex = cfg /\ in_order ex tr /\
  activeTaskCount ex < maxConcurrentTasks cfg /\
  (taskQueue ex <> [] -> maxConcurrentTasks cfg <= activeTaskCount ex + 1).

(** ** Unknown task types and actions *)

(** The executor once an activation has started, has sent [m] and has
    decremented the counter again: the counter and the queue are as
    before. *)
Definition after_report (m : JSValue) (ex : TaskExecutor) : TaskExecutor :=
  mkTaskExecutor (config ex) (activeTaskCount ex) (taskQueue ex)
    (sent ex ++ [m])%list (suspended ex) (S (activations ex))
    (readyState ex) (reconnects ex).

(** The cases of the [switch (task.type)] of [executeTask]. *)
Definition known_type (type : JSValue) : bool :=
  is_string type "DOM_MANIPULATION" || is_string type "NETWORK_INTERCEPT"
  || is_string type "UI_AUTOMATION" || is_string type "DATA_EXTRACTION".

(** ** Finishing a task *)

(** The outcome of a handler that has stopped awaiting. *)
Definition final (a : Async) : option Outcome :=
  match a with
  | Return v => Some (Resolved v)
  | Throw e => Some (Rejected e)
  | Await _ _ => None
  end.

(** The executor once waiting activation [i] has sent [m] and
    decremented the counter. *)
Definition after_finish (i : nat) (m : JSValue) (ex : TaskExecutor) : TaskExecutor :=
  mkTaskExecutor (config ex) (activeTaskCount ex - 1) (taskQueue ex)
    (sent ex ++ [m])%list (delete i (suspended ex)) (activations ex)
    (readyState ex) (reconnects ex).

(** A request to capture the visible tab, and the message that
    carries a task. *)
Definition screenshot_task : JSValue :=
  JObj [("id", JStr "shot"); ("type", JStr "DATA_EXTRACTION");
        ("parameters", JObj [("type", JStr "SCREENSHOT")])].

Definition task_request (content : JSValue) : Event :=
  onmessage (JSONText (JObj [("sender", JStr "interface");
                             ("message_type", JStr "task_request");
                             ("content", content)])).

Definition epoch (n : nat) : string := "1970-01-01T00:00:00.000Z".

(** The exported executor at its bound, its socket open, with [q]
    screenshot requests waiting in the queue and one running at depth
    [k]. *)
Definition piled (k q : nat) (ex : TaskExecutor) : Prop :=
  config ex = taskExecutor_config /\
  readyState ex = OPEN /\
  activeTaskCount ex = 5 /\
  taskQueue ex = replicate q screenshot_task /\
  exists j s, suspended ex !! j = Some s /\
              s_task s = screenshot_task /\ s_depth s = k /\
              s_resume s (Resolved JNull) = Return JNull.

(** The cases of the [switch] of each handler that has one. *)
Definition dom_action (action : JSValue) : bool :=
  is_string action "CLICK" || is_string action "INPUT" || is_string action "SCROLL".

Definition ui_action (action : JSValue) : bool :=
  is_string action "OPEN_POPUP" || is_string action "SHOW_NOTIFICATION".

Definition extraction_type (type : JSValue) : bool :=
  is_string type "TEXT" || is_string type "ATTRIBUTES" || is_string type "SCREENSHOT".

(** [task] is of a type whose handler has a [switch], and its
    [parameters] do not select a case of it: they hold [action] as
    their [action] (as their [type], for an extraction), and the
    message of the [default] case starts with [unknown]. *)
Definition unrecognised (task parameters : JSValue) (unknown : string) (action : JSValue)
  : Prop :=
  let type := member task "type" in
  (is_string type "DOM_MANIPULATION" = true /\
   action = member parameters "action" /\
   dom_action action = false /\
   unknown = "Unknown DOM action: ") \/
  (is_string type "UI_AUTOMATION" = true /\
   action = member parameters "action" /\
   ui_action action = false /\
   unknown = "Unknown UI action: ") \/
  (is_string type "DATA_EXTRACTION" = true /\
   action = member parameters "type" /\
   extraction_type action = false /\
   unknown = "Unknown extraction type: ").

(** The message of the specification for an action that the handler
    of [category] does not know. *)
Definition spec_action_error (category action : string) : string :=
  "Unknown " ++ category ++ " action: " ++ action.

Definition pdf_extraction_task : JSValue :=
  JObj [("id", JStr "t1"); ("type", JStr "DATA_EXTRACTION");
        ("parameters", JObj [("type", JStr "PDF")])].

(** ** The messages sent *)

Definition is_text (v : JSValue) : bool :=
  match v with
  | JStr _ => true
  | _ => false
  end.

Definition is_text_or_null (v : JSValue) : bool :=
  match v with
  | JStr _ | JNull => true
  | _ => false
  end.

(** An object (an array counts as one) or [null]. *)
Definition is_object_or_null (v : JSValue) : bool :=
  match v with
  | JObj _ | JArr _ | JNull => true
  | _ => false
  end.

Definition is_present (v : JSValue) : bool :=
  match v with
  | JUndefined => false
  | _ => true
  end.

(** The [content] of a [task_result] as the specification words it:
    [{task_id, status: "completed"|"failed", result: <object|null>,
    error: string|null, timestamp: ISO-8601 string}]. *)
Definition spec_content_shape (content : JSValue) : bool :=
  is_present (member content "task_id")
  && (is_string (member content "status") "completed"
      || is_string (member content "status") "failed")
  && is_object_or_null (member content "result")
  && is_text_or_null (member content "error")
  && is_text (member content "timestamp").

(** The message as the specification words it:
    [{ "sender": string, "message_type": string, "content": <object> }]. *)
Definition spec_wire_shape (m : JSValue) : bool :=
  is_text (member m "sender")
  && is_text (member m "message_type")
  && spec_content_shape (member m "content").

(** The message as [sendTaskResult] writes it: [task_id] is there when
    the task has an [id]; [result] is any value, [null] included;
    [error] is a text or [null]; the timestamp is a reading of the
    clock. *)
Definition task_result_shape (now : nat -> string) (m : JSValue) : Prop :=
  exists (task_id : list (string * JSValue)) (status : string) (result error : JSValue)
         (n : nat),
    m = JObj [("message_type", JStr "task_result");
              ("content", JObj (task_id ++ [("status", JStr status);
                                            ("result", result);
                                            ("error", error);
                                            ("timestamp", JStr (now n))])%list)] /\
    (task_id = [] \/ exists id, is_present id = true /\ task_id = [("task_id", id)]) /\
    (status = "completed" \/ status = "failed") /\
    is_present result = true /\
    is_text_or_null error = true.

(** Result and error go with the status. *)
Definition paired (m : JSValue) : Prop :=
  (status_of m = JStr "completed" /\ content_field m "error" = JNull) \/
  (status_of m = JStr "failed" /\ content_field m "result" = JNull).

(** A click on an element that the page does not have: the tab is
    found, and the page answers [false]. *)
Definition click_task : JSValue :=
  JObj [("id", JStr "t4"); ("type", JStr "DOM_MANIPULATION");
        ("parameters", JObj [("action", JStr "CLICK"); ("selector", JStr "#missing")])].

Definition click_on_nothing : list Event :=
  [onopen;
   task_request click_task;
   settle 0 (Resolved (JArr [JObj [("id", JNum 7)]]));
   settle 0 (Resolved (JBool false))].

(** ** Messages that are not well-formed task requests *)

(** A [task_request] that carries no [content]. *)
Definition bare_task_request : Event :=
  onmessage (JSONText (JObj [("sender", JStr "interface");
                             ("message_type", JStr "task_request")])).

(** The counter says the executor is at its bound although no
    activation is waiting and nothing was sent. *)
Definition starved (cfg : TaskExecutorConfig) (ex : TaskExecutor) : Prop :=
  config ex = cfg /\
  maxConcurrentTasks cfg <= activeTaskCount ex /\
  suspended ex = ∅ /\ sent ex = [].

(** ** The configuration *)



(** ** Worked runs *)

Definition screenshot (id : string) : JSValue :=
  JObj [("id", JStr id); ("type", JStr "DATA_EXTRACTION");
        ("parameters", JObj [("type", JStr "SCREENSHOT")])].

(** Two slots and three tasks at once: the third waits until the
    first is done. *)
Definition two_slots : TaskExecutorConfig := mkConfig 2 30000 3.

Definition three_arrivals : list Event :=
  [onopen;
   task_request (screenshot "T1"); task_request (screenshot "T2");
   task_request (screenshot "T3")].

Definition three_tasks : list Event :=
  (three_arrivals ++ [settle 0 (Resolved (JStr "data:image/png;base64,AAAA"))])%list.

(** The first task while it waits for the capture. *)
Definition first_waiting : Suspended :=
  mkSuspended (screenshot "T1") 0 tabs_captureVisibleTab
    (fun o => match o with
              | Resolved v => Return v
              | Rejected e => Throw e
              end).

Definition bogus_task : JSValue := JObj [("id", JStr "t2"); ("type", JStr "BOGUS")].

Definition click_result_message : JSValue :=
  JObj [("message_type", JStr "task_result");
        ("content", JObj [("task_id", JStr "t4"); ("status", JStr "completed");
                          ("result", JBool false); ("error", JNull);
                          ("timestamp", JStr "1970-01-01T00:00:00.000Z")])].

(** The exported executor once its socket has opened. *)
Definition taskExecutor_open : TaskExecutor :=
  (step epoch (new_TaskExecutor taskExecutor_config) onopen).1.

(** Two slots and five tasks at once: three wait. *)
Definition five_arrivals : list Event :=
  (three_arrivals ++ [task_request (screenshot "T4"); task_request (screenshot "T5")])%list.

(** The second task while it waits for the capture. *)
Definition second_waiting : Suspended :=
  mkSuspended (screenshot "T2") 0 tabs_captureVisibleTab
    (fun o => match o with
              | Resolved v => Return v
              | Rejected e => Throw e
              end).

(** Three tasks, then the socket closes while two of them run, and
    the first capture is done. *)
Definition closed_while_running : list Event :=
  [task_request (screenshot "T1"); task_request (screenshot "T2");
   task_request (screenshot "T3"); onclose;
   settle 0 (Resolved (JStr "data:image/png;base64,AAAA"))].

(** ** Further notions for the executor *)

Definition received_is_object (l : Label) : Prop :=
  match l with
  | Received t => nullish t = false
  | _ => True
  end.

(** The counter is the number of waiting activations plus [slack];
    the waiting activations have numbers already given out; and every
    task that waits, in an activation or in the queue, is a value with
    properties. *)
Definition counted (slack : Z) (ex : TaskExecutor) : Prop :=
  Z.of_nat (size (suspended ex)) + slack = activeTaskCount ex /\
  (forall j s, suspended ex !! j = Some s ->
               (j < activations ex)%nat /\ nullish (s_task s) = false) /\
  Forall (fun t => nullish t = false) (taskQueue ex).

(** The socket takes what it is sent, and so far the counter is right
    if the tasks received were values with properties. *)
Definition in_step (slack : Z) (ex : TaskExecutor) (tr : list Label) : Prop :=
  connecting ex = false /\ (Forall received_is_object tr -> counted slack ex).

(** A bound that admits nothing: nothing ran, and every task received
    is in the queue. *)
Definition shut (cfg : TaskExecutorConfig) (ex : TaskExecutor) (tr : list Label) : Prop :=
  config ex = cfg /\ activeTaskCount ex = 0 /\ suspended ex = ∅ /\ sent ex = [] /\
  taskQueue ex = received_tasks tr /\ started_tasks tr = [].

(** [message.message_type === 'task_request'] on the payload of a
    socket message. *)
Definition is_task_request (data : WireData) : bool :=
  match data with
  | NotJSON _ => false
  | JSONText message => is_string (member message "message_type") "task_request"
  end.

Definition is_escape (l : Label) : Prop :=
  match l with
  | Escaped _ => True
  | _ => False
  end.

(** The [result] and the [error] that [handleTaskRequest] passes to
    [sendTaskResult] for an outcome, after the defaults. *)
Definition outcome_result (o : Outcome) : JSValue :=
  match o with
  | Resolved v => default_null v
  | Rejected _ => JNull
  end.

Definition outcome_error (o : Outcome) : JSValue :=
  match o with
  | Resolved _ => JNull
  | Rejected e => JStr (error_message e)
  end.

(** [m] is the [k]-th message, and reports the outcome of the handler
    of the task that activation [i] was started for. *)
Definition reports (now : nat -> string) (tr : list Label) (k i : nat) (m : JSValue) : Prop :=
  exists d n t o,
    Started i d n t ∈ tr /\ Settled i o ∈ tr /\
    m = JSON_stringify
          (task_result (member t "id") (outcome_status o) (outcome_result o)
             (outcome_error o) (now k)).

Definition all_reported (now : nat -> string) (ex : TaskExecutor) (tr : list Label) : Prop :=
  (forall i m, Sent i m ∈ tr -> exists k, sent ex !! k = Some m /\ reports now tr k i m) /\
  (forall k m, sent ex !! k = Some m -> exists i, reports now tr k i m) /\
  (forall i s, suspended ex !! i = Some s ->
               exists n, Started i (s_depth s) n (s_task s) ∈ tr).

(** ** The task creator of the dashboard

    [onSubmit] of frontend/src/components/task-execution/task-creator.tsx
    and [sendMessage] of frontend/src/lib/websocket.ts: the
    [task_request] that the dashboard writes. *)

Inductive TaskType : Type :=
| browser_action
| file_operation
| api_call
| ml_inference.

Definition TaskType_text (t : TaskType) : string :=
  match t with
  | browser_action => "browser_action"
  | file_operation => "file_operation"
  | api_call => "api_call"
  | ml_inference => "ml_inference"
  end.

(** [z.infer<typeof taskSchema>]: the values of the form once the
    schema has accepted them. *)
Record TaskForm : Type := mkTaskForm {
  form_taskType : TaskType;
  form_priority : Z;
  form_timeout : option Z;
  form_retryEnabled : bool;
  form_maxRetries : Z;
  form_parameters : list (string * JSValue);
  form_dependencies : option (list string)
}.

Definition optional {A : Type} (f : A -> JSValue) (o : option A) : JSValue :=
  match o with
  | Some a => f a
  | None => JUndefined
  end.

Definition form_data (data : TaskForm) : list (string * JSValue) :=
  [("taskType", JStr (TaskType_text (form_taskType data)));
   ("priority", JNum (form_priority data));
   ("timeout", optional JNum (form_timeout data));
   ("retryEnabled", JBool (form_retryEnabled data));
   ("maxRetries", JNum (form_maxRetries data));
   ("parameters", JObj (form_parameters data));
   ("dependencies", optional (fun l => JArr (JStr <$> l)) (form_dependencies data))].

(** The message of [onSubmit]; [date_now] is [Date.now()]. *)
Definition onSubmit (date_now : Z) (data : TaskForm) : JSValue :=
  JObj [("sender", JStr "interface");
        ("message_type", JStr "task_request");
        ("content", JObj (("task_id", JStr ("task-" ++ pretty date_now)) :: form_data data))].

(** [sendMessage(message)]: the text goes out when there is a socket
    and it is open, and nothing happens otherwise. *)
Definition sendMessage (socket_open : bool) (message : JSValue) : option WireData :=
  if socket_open then Some (JSONText (JSON_stringify message)) else None.

Definition click_form : TaskForm :=
  mkTaskForm browser_action 5 (Some 30) true 3
    [("action", JStr "CLICK"); ("selector", JStr "#go")] (Some []).

(** ** The content script

    The script that the extension runs in every page (the first script
    of browser-extension/src): it listens on a socket of its own, to
    the same address, for [browser_command] and [interface_action]
    messages and acts on the page. *)

(** What the script reads of the page. [querySelector] answers an
    element, named by a number, or nothing, and raises on a selector
    that is not one. *)
Record Document : Type := mkDocument {
  querySelector : JSValue -> Completion (option nat);
  location_href : string;
  document_title : string;
  body_textContent : JSValue
}.

Inductive PageEffect : Type :=
| scrollTo (options : JSValue)
| click (element : nat)
| runtime_sendMessage (message : JSValue)
| observe_body.

(** The page as the script changes it: the background colour it gave
    to elements, the [setTimeout] callbacks that wait, oldest first
    (each restores a colour of an element; all have the same delay, so
    they fire in this order), the mutation observers it has set up,
    what [socket.send] took, what else it did, the [readyState] of
    [socket], and the timers of [onclose] that wait. *)
Record Page : Type := mkPage {
  backgroundColor : gmap nat string;
  timers : list (nat * string);
  observers : nat;
  page_sent : list JSValue;
  effects : list PageEffect;
  page_socket : ReadyState;
  page_reconnects : nat
}.

(** [element.style.backgroundColor]: the empty text when none is
    set. *)
Definition background (page : Page) (element : nat) : string :=
  default "" (backgroundColor page !! element).

Definition set_background (element : nat) (colour : string) (page : Page) : Page :=
  mkPage (<[element := colour]> (backgroundColor page)) (timers page) (observers page)
    (page_sent page) (effects page) (page_socket page) (page_reconnects page).

Definition setTimeout (callback : nat * string) (page : Page) : Page :=
  mkPage (backgroundColor page) (timers page ++ [callback])%list (observers page)
    (page_sent page) (effects page) (page_socket page) (page_reconnects page).

Definition set_timers (waiting : list (nat * string)) (page : Page) : Page :=
  mkPage (backgroundColor page) waiting (observers page) (page_sent page) (effects page)
    (page_socket page) (page_reconnects page).

Definition set_observers (count : nat) (page : Page) : Page :=
  mkPage (backgroundColor page) (timers page) count (page_sent page) (effects page)
    (page_socket page) (page_reconnects page).

Definition set_page_socket (state : ReadyState) (waiting : nat) (page : Page) : Page :=
  mkPage (backgroundColor page) (timers page) (observers page) (page_sent page)
    (effects page) state waiting.

(** The socket has taken the text of [message]. *)
Definition page_took (message : JSValue) (page : Page) : Page :=
  mkPage (backgroundColor page) (timers page) (observers page)
    (page_sent page ++ [JSON_stringify message])%list (effects page)
    (page_socket page) (page_reconnects page).

Definition page_connecting (page : Page) : bool :=
  match page_socket page with
  | CONNECTING => true
  | _ => false
  end.

(** [socket.send(JSON.stringify(message))]: it raises on a socket that
    is still connecting; a socket that is closing or closed takes the
    text and drops it. *)
Definition page_send (message : JSValue) (page : Page) : Completion Page :=
  if page_connecting page then Thrown InvalidStateError
  else Normal (page_took message page).

Definition page_effect (e : PageEffect) (page : Page) : Page :=
  mkPage (backgroundColor page) (timers page) (observers page) (page_sent page)
    (effects page ++ [e])%list (page_socket page) (page_reconnects page).

Definition from_extension (message_type : string) (content : JSValue) : JSValue :=
  JObj [("sender", JStr "browser-extension");
        ("message_type", JStr message_type);
        ("content", content)].

(** [case 'HIGHLIGHT_ELEMENT'], for an element that was found. *)
Definition highlight (element : nat) (page : Page) : Page :=
  let originalBackground := background page element in
  setTimeout (element, originalBackground) (set_background element "yellow" page).

Definition handleBrowserCommand (doc : Document) (page : Page) (content : JSValue)
  : Completion Page :=
  bindC (get content "command") (fun command =>
  if is_string command "SCROLL_TO" then
    Normal (page_effect
              (scrollTo (JObj [("top", member content "position");
                               ("behavior", JStr "smooth")])) page)
  else if is_string command "CLICK_ELEMENT" then
    bindC (querySelector doc (member content "selector")) (fun element =>
    match element with
    | Some el => Normal (page_effect (click el) page)
    | None => Normal page
    end)
  else if is_string command "EXTRACT_TEXT" then
    page_send
      (from_extension "browser_response"
         (JObj [("command", JStr "EXTRACT_TEXT"); ("text", body_textContent doc)])) page
  else if is_string command "HIGHLIGHT_ELEMENT" then
    bindC (querySelector doc (member content "selector")) (fun targetElement =>
    match targetElement with
    | Some el => Normal (highlight el page)
    | None => Normal page
    end)
  else Normal page).

Definition handleInterfaceAction (doc : Document) (page : Page) (content : JSValue)
  : Completion Page :=
  bindC (get content "command") (fun command =>
  if is_string command "CAPTURE_SCREENSHOT" then
    Normal (page_effect
              (runtime_sendMessage
                 (JObj [("type", JStr "CAPTURE_SCREENSHOT");
                        ("data", JObj [("url", JStr (location_href doc))])])) page)
  else if is_string command "MONITOR_CHANGES" then
    Normal (page_effect observe_body (set_observers (S (observers page)) page))
  else Normal page).

Definition handleWebSocketMessage (doc : Document) (page : Page) (message : JSValue)
  : Completion Page :=
  bindC (get message "message_type") (fun message_type =>
  if is_string message_type "browser_command"
  then handleBrowserCommand doc page (member message "content")
  else if is_string message_type "interface_action"
  then handleInterfaceAction doc page (member message "content")
  else Normal page).

(** The jobs of the event loop that concern the content script: the
    socket opens, a message arrives, the oldest timer of a highlight
    fires, the observers are told of a batch of [changes] mutations,
    the closing handshake of the socket starts, the socket closes (or
    fails to connect) and [onclose] runs, a timer of [onclose] fires.
    The browser delivers messages on an open socket only;
    [page_onmessage] below is what the handler does when it is
    called. *)
Inductive PageEvent : Type :=
| socket_onopen
| page_onmessage (data : WireData)
| timer_fires
| mutations (changes : nat)
| page_closing
| page_onclose
| page_reconnect.

Definition dom_change (doc : Document) (changes : nat) : JSValue :=
  from_extension "dom_change"
    (JObj [("url", JStr (location_href doc)); ("changes", JNum (Z.of_nat changes))]).

(** A handler, or a callback, that raises has done nothing before,
    and its exception leaves it. *)
Definition attempt (page : Page) (done : Completion Page) : Page :=
  match done with
  | Normal page' => page'
  | Thrown _ => page
  end.

(** Every observer that was set up calls its callback, one after the
    other; an exception of one does not keep the next from running. *)
Fixpoint notify (count : nat) (message : JSValue) (page : Page) : Page :=
  match count with
  | O => page
  | S n => notify n message (attempt page (page_send message page))
  end.

(** One job.  A socket opens once, from connecting, and [onopen]
    sends the [connect] message; its closing handshake starts while it
    is open; it closes once, and [onclose] sets a timer; when such a
    timer fires, [connectWebSocket] makes [socket] a new socket, which
    is connecting. *)
Definition page_step (doc : Document) (page : Page) (ev : PageEvent) : Page :=
  match ev with
  | socket_onopen =>
      match page_socket page with
      | CONNECTING =>
          let page := set_page_socket OPEN (page_reconnects page) page in
          attempt page
            (page_send
               (from_extension "connect"
                  (JObj [("url", JStr (location_href doc));
                         ("title", JStr (document_title doc))]))
               page)
      | _ => page
      end
  | page_onmessage data =>
      attempt page (bindC (JSON_parse data) (handleWebSocketMessage doc page))
  | timer_fires =>
      match timers page with
      | [] => page
      | (element, colour) :: rest => set_background element colour (set_timers rest page)
      end
  | mutations changes => notify (observers page) (dom_change doc changes) page
  | page_closing =>
      match page_socket page with
      | OPEN => set_page_socket CLOSING (page_reconnects page) page
      | _ => page
      end
  | page_onclose =>
      match page_socket page with
      | CLOSED => page
      | _ => set_page_socket CLOSED (S (page_reconnects page)) page
      end
  | page_reconnect =>
      match page_reconnects page with
      | O => page
      | S waiting => set_page_socket CONNECTING waiting page
      end
  end.

Definition page_run (doc : Document) (page : Page) (evs : list PageEvent) : Page :=
  fold_left (page_step doc) evs page.

(** The page when the script is loaded: its last statement is
    [connectWebSocket()], and the socket is connecting. *)
Definition new_page (colours : gmap nat string) : Page :=
  mkPage colours [] 0 [] [] CONNECTING 0.

Definition browser_command (content : JSValue) : PageEvent :=
  page_onmessage (JSONText (JObj [("sender", JStr "interface");
                                  ("message_type", JStr "browser_command");
                                  ("content", content)])).

Definition highlight_command (selector : JSValue) : PageEvent :=
  browser_command (JObj [("command", JStr "HIGHLIGHT_ELEMENT"); ("selector", selector)]).

(** [message] is an [interface_action] that asks to monitor the
    changes of the page. *)
Definition is_monitor_command (ev : PageEvent) : bool :=
  match ev with
  | page_onmessage (JSONText message) =>
      negb (nullish (member message "content"))
      && is_string (member message "message_type") "interface_action"
      && is_string (member (member message "content") "command") "MONITOR_CHANGES"
  | _ => false
  end.

(** The envelope that the messages of the repository share:
    [{ sender, message_type, content }]. *)
Definition from_browser_extension (m : JSValue) : Prop :=
  member m "sender" = JStr "browser-extension" /\
  is_text (member m "message_type") = true /\
  exists fields, member m "content" = JObj fields.

(** A document with one button. *)
Definition one_button : Document :=
  mkDocument (fun selector => if is_string selector "#go" then Normal (Some 1%nat)
                              else Normal None)
    "http://localhost:3000/" "Dashboard" (JStr "Go").

(** ** The background script

    The service worker of the extension (the second script of
    browser-extension/src): it answers the messages of the content
    scripts and saves the selection of the context menu, both through
    the API client. *)

(** The calls that the background script awaits. *)
Inductive ApiCall : Type :=
| analyze_page (request : JSValue)
| tasks_create (request : JSValue)
| knowledge_addDocument (document : JSValue)
| notify_content_saved.


(** [v?.k] *)
Definition optional_member (v : JSValue) (k : string) : JSValue :=
  if nullish v then JUndefined else member v k.

(** [a || b] *)
Definition or_else (a b : JSValue) : JSValue := if ToBoolean a then a else b.



(** What the handler of the context menu does: the calls it makes, in
    order, and the exception it logs. *)
Inductive BackgroundEffect : Type :=
| called (c : ApiCall)
| console_error (e : JSError).

(** The listener of [browser.contextMenus.onClicked]. *)
Definition contextMenus_onClicked (api : ApiCall -> Outcome) (info tab : JSValue)
  : Completion (list BackgroundEffect) :=
  bindC (get info "menuItemId") (fun menuItemId =>
  if is_string menuItemId "addToKnowledge" then
    let document :=
      JObj [("title", or_else (optional_member tab "title") (JStr "Untitled"));
            ("content", or_else (member info "selectionText") (JStr ""));
            ("url", optional_member tab "url");
            ("tags", JArr [JStr "web-clip"])] in
    Normal
      (called (knowledge_addDocument document) ::
       match api (knowledge_addDocument document) with
       | Rejected e => [console_error e]
       | Resolved _ =>
           called notify_content_saved ::
           match api notify_content_saved with
           | Rejected e => [console_error e]
           | Resolved _ => []
           end
       end)
  else Normal []).

Definition api_up (c : ApiCall) : Outcome := Resolved (JObj [("ok", JBool true)]).

(** ** Further examples *)

(** An executor that may run nothing. *)
Definition no_slots : TaskExecutorConfig := mkConfig 0 30000 3.

(** A message of the channel that is not a task request. *)
Definition ping : WireData :=
  JSONText (JObj [("sender", JStr "interface"); ("message_type", JStr "ping");
                  ("content", JObj [])]).

(** The tab that the browser finds. *)
Definition tab_seven : JSValue := JObj [("id", JNum 7)].

Definition fetch_task : JSValue :=
  JObj [("id", JStr "t6"); ("type", JStr "NETWORK_INTERCEPT");
        ("parameters", JObj [("url", JStr "http://localhost:8000/api/status");
                             ("method", JStr "GET")])].

Definition no_parameters_task : JSValue :=
  JObj [("id", JStr "t5"); ("type", JStr "UI_AUTOMATION")].


(** The page is asked for its text, then to watch its changes, and
    then changes twice. *)
Definition watched_page : list PageEvent :=
  [socket_onopen;
   browser_command (JObj [("command", JStr "EXTRACT_TEXT")]);
   page_onmessage
     (JSONText (JObj [("sender", JStr "interface");
                      ("message_type", JStr "interface_action");
                      ("content", JObj [("command", JStr "MONITOR_CHANGES")])]));
   mutations 2].



(** The menu item is chosen on a selection. *)
Definition menu_click : JSValue :=
  JObj [("menuItemId", JStr "addToKnowledge"); ("selectionText", JStr "Worth keeping.")].


(** * Properties *)

(** ** What the definitions compute *)

Section Equations.

Variable now : nat -> string.

Lemma after_nil (r : Step) : after [] r = r.
Proof. by destruct r. Qed.

Lemma after_snd (ls : list Label) (r : Step) : (after ls r).2 = (ls ++ r.2)%list.
Proof. done. Qed.

Lemma after_after (l1 l2 : list Label) (r : Step) :
  after l1 (after l2 r) = after (l1 ++ l2)%list r.
Proof. unfold after. simpl. by rewrite app_assoc. Qed.

Lemma report_eq (ex : TaskExecutor) (i : nat) (task : JSValue) (o : Outcome) :
  report now ex i task o =
  match get task "id" with
  | Normal id =>
      if connecting ex then Thrown InvalidStateError
      else Normal (socket_send (result_message now ex id o) ex,
                   [Sent i (result_message now ex id o)])
  | Thrown e => Thrown e
  end.
Proof.
  unfold report, sendTaskResult, send, result_message.
  destruct o as [v|e]; simpl; destruct (get task "id"); simpl; try done;
    by destruct (connecting ex).
Qed.

Lemma settled_eq (depth : nat) (ex : TaskExecutor) (i : nat) (task : JSValue) (o : Outcome) :
  settled now depth ex i task o =
  match get task "id" with
  | Thrown e => (ex, [Settled i o; Escaped e])
  | Normal id =>
      if connecting ex then (ex, [Settled i o; Escaped InvalidStateError])
      else
        let m := result_message now ex id o in
        after [Settled i o; Sent i m; Finished i]
          (drainQueue now depth (set_active (activeTaskCount ex - 1) (socket_send m ex)))
  end.
Proof.
  unfold settled, drainQueue.
  destruct (taskQueue ex) as [|nextTask rest] eqn:Hq; simpl;
    rewrite report_eq; destruct (get task "id"); simpl; try done;
    destruct (connecting ex); simpl; try done;
    rewrite Hq; by rewrite ?after_after.
Qed.

Lemma handleTaskRequest_full (depth : nat) (ex : TaskExecutor) (task : JSValue) :
  full ex ->
  handleTaskRequest now depth ex task =
  (set_queue (taskQueue ex ++ [task])%list ex, [Queued depth task]).
Proof.
  unfold full, handleTaskRequest, handleTaskRequest_with. intros H.
  by destruct (Z.geb_spec (activeTaskCount ex) (maxConcurrentTasks (config ex))); [|lia].
Qed.

Lemma handleTaskRequest_free (depth : nat) (ex : TaskExecutor) (task : JSValue) :
  ~ full ex ->
  handleTaskRequest now depth ex task =
  let i := activations ex in
  after [Started i depth (activeTaskCount ex + 1) task]
    match executeTask task with
    | Await call k =>
        (set_suspended (<[i := mkSuspended task depth call k]> (suspended ex))
           (begin_activation ex), [])
    | Return v => settled now depth (begin_activation ex) i task (Resolved v)
    | Throw e => settled now depth (begin_activation ex) i task (Rejected e)
    end.
Proof.
  unfold full, handleTaskRequest, handleTaskRequest_with. intros H.
  by destruct (Z.geb_spec (activeTaskCount ex) (maxConcurrentTasks (config ex))); [lia|].
Qed.

Lemma run_app (ex : TaskExecutor) (evs1 evs2 : list Event) :
  run now ex (evs1 ++ evs2) =
  after (run now ex evs1).2 (run now (run now ex evs1).1 evs2).
Proof.
  revert ex. induction evs1 as [|ev evs1 IH]; intros ex; simpl.
  - by rewrite after_nil.
  - rewrite IH. by rewrite after_after.
Qed.

Lemma run_snoc (ex : TaskExecutor) (evs : list Event) (ev : Event) :
  run now ex (evs ++ [ev]) = after (run now ex evs).2 (step now (run now ex evs).1 ev).
Proof.
  rewrite run_app. simpl. unfold after. simpl. by rewrite app_nil_r.
Qed.

End Equations.

(** ** Invariants of a run

    A run is made of the elementary moves listed below as hypotheses.
    A property [Inv] of the executor and of what it has done so far
    that the moves preserve holds all along every run.  [Mid i d t] is
    what holds while activation [i] of task [t], at depth [d], is
    between its [activeTaskCount++] and its [activeTaskCount--]
    without being suspended; [Drn d] is what holds right after
    [activeTaskCount--], before the queue is looked at. *)
Section Invariant.

Variable now : nat -> string.
Variable Inv : TaskExecutor -> list Label -> Prop.
Variable Mid : nat -> nat -> JSValue -> TaskExecutor -> list Label -> Prop.
Variable Drn : nat -> TaskExecutor -> list Label -> Prop.

Hypothesis rule_escape_onmessage : forall ex tr e,
  Inv ex tr -> Inv ex (tr ++ [Escaped e]).
Hypothesis rule_arrive_push : forall ex tr t,
  Inv ex tr -> full ex ->
  Inv (set_queue (taskQueue ex ++ [t]) ex) (tr ++ [Received t; Queued 0 t]).
Hypothesis rule_arrive_start : forall ex tr t,
  Inv ex tr -> ~ full ex ->
  Mid (activations ex) 0 t (begin_activation ex)
    (tr ++ [Received t; Started (activations ex) 0 (activeTaskCount ex + 1) t]).
Hypothesis rule_suspend : forall ex tr i d t call k,
  Mid i d t ex tr -> executeTask t = Await call k ->
  Inv (set_suspended (<[i := mkSuspended t d call k]> (suspended ex)) ex) tr.
Hypothesis rule_escape : forall ex tr i d t o e,
  Mid i d t ex tr -> get t "id" = Thrown e \/ connecting ex = true ->
  Inv ex (tr ++ [Settled i o; Escaped e]).
Hypothesis rule_finish : forall ex tr i d t o id,
  Mid i d t ex tr -> get t "id" = Normal id -> connecting ex = false ->
  Drn d (set_active (activeTaskCount ex - 1) (socket_send (result_message now ex id o) ex))
    (tr ++ [Settled i o; Sent i (result_message now ex id o); Finished i]).
Hypothesis rule_drain_done : forall ex tr d,
  Drn d ex tr -> taskQueue ex = [] -> Inv ex tr.
Hypothesis rule_drain_push : forall ex tr d nextTask rest,
  Drn d ex tr -> taskQueue ex = nextTask :: rest -> full ex ->
  Inv (set_queue (rest ++ [nextTask]) ex) (tr ++ [Shifted nextTask; Queued (S d) nextTask]).
Hypothesis rule_drain_start : forall ex tr d nextTask rest,
  Drn d ex tr -> taskQueue ex = nextTask :: rest -> ~ full ex ->
  Mid (activations ex) (S d) nextTask (begin_activation (set_queue rest ex))
    (tr ++ [Shifted nextTask;
            Started (activations ex) (S d) (activeTaskCount ex + 1) nextTask]).
Hypothesis rule_resume_settled : forall ex tr i s,
  Inv ex tr -> suspended ex !! i = Some s ->
  Mid i (s_depth s) (s_task s) (set_suspended (delete i (suspended ex)) ex) tr.
Hypothesis rule_resume_await : forall ex tr i s o call k,
  Inv ex tr -> suspended ex !! i = Some s -> s_resume s o = Await call k ->
  Inv (set_suspended (<[i := mkSuspended (s_task s) (s_depth s) call k]> (suspended ex)) ex)
    tr.
Local Ltac conclude H :=
  revert H; rewrite <- ?app_assoc, ?app_nil_r; simpl; intros H; exact H.

Lemma settled_from_invariant (queue : list JSValue) :
  forall depth ex i task o tr,
    taskQueue ex = queue ->
    Mid i depth task ex tr ->
    Inv (settled_from now queue depth ex i task o).1
        (tr ++ (settled_from now queue depth ex i task o).2).
Proof.
  induction queue as [|nextTask rest IH]; intros depth ex i task o tr Hq HM;
    simpl; rewrite report_eq; destruct (get task "id") as [id|e] eqn:Hid; simpl;
    try (by eapply rule_escape; [|left]);
    destruct (connecting ex) eqn:Hsock; simpl;
    try (by eapply rule_escape; [|right]).
  - eapply rule_drain_done; [by eapply (rule_finish _ _ _ _ _ o)|done].
  - pose proof (rule_finish _ _ _ _ _ o _ HM Hid Hsock) as HD.
    set (m := result_message now ex id o) in *.
    set (ex1 := set_active (activeTaskCount ex - 1) (socket_send m ex)) in *.
    assert (Hq1 : taskQueue ex1 = nextTask :: rest) by done.
    unfold handleTaskRequest_with.
    change (activeTaskCount (set_queue rest ex1)) with (activeTaskCount ex1).
    change (config (set_queue rest ex1)) with (config ex1).
    destruct (Z.geb_spec (activeTaskCount ex1) (maxConcurrentTasks (config ex1)))
      as [Hfull|Hfree]; simpl.
    + pose proof (rule_drain_push _ _ _ _ _ HD Hq1 Hfull) as HI.
      conclude HI.
    + assert (Hnf : ~ full ex1) by (unfold full; lia).
      pose proof (rule_drain_start _ _ _ _ _ HD Hq1 Hnf) as HM1.
      destruct (executeTask nextTask) as [v|e|call k] eqn:Hx; simpl.
      * specialize (IH (S depth) (begin_activation (set_queue rest ex1)) _ _
                        (Resolved v) _ eq_refl HM1).
        conclude IH.
      * specialize (IH (S depth) (begin_activation (set_queue rest ex1)) _ _
                        (Rejected e) _ eq_refl HM1).
        conclude IH.
      * pose proof (rule_suspend _ _ _ _ _ _ _ HM1 Hx) as HI.
        conclude HI.
Qed.

Lemma settled_invariant depth ex i task o tr :
  Mid i depth task ex tr ->
  Inv (settled now depth ex i task o).1 (tr ++ (settled now depth ex i task o).2).
Proof. by apply settled_from_invariant. Qed.

(** The jobs that run code of the executor. *)
Lemma job_invariant ex ev tr :
  match ev with
  | onmessage _ | settle _ _ => True
  | _ => False
  end ->
  Inv ex tr -> Inv (step now ex ev).1 (tr ++ (step now ex ev).2).
Proof.
  intros Hev HI. destruct ev as [data|i o| | | |]; simpl; try done.
  - unfold socket_onmessage.
    destruct (JSON_parse data) as [message|e]; simpl; [|by apply rule_escape_onmessage].
    destruct (get message "message_type") as [mt|e]; simpl;
      [|by apply rule_escape_onmessage].
    destruct (is_string mt "task_request"); simpl; [|by rewrite app_nil_r].
    destruct (get message "content") as [content|e]; simpl;
      [|by apply rule_escape_onmessage].
    unfold handleTaskRequest, handleTaskRequest_with.
    destruct (Z.geb_spec (activeTaskCount ex) (maxConcurrentTasks (config ex)))
      as [Hfull|Hfree]; simpl.
    + by apply rule_arrive_push.
    + assert (Hnf : ~ full ex) by (unfold full; lia).
      pose proof (rule_arrive_start _ _ content HI Hnf) as HM.
      destruct (executeTask content) as [v|e|call k] eqn:Hx; simpl.
      * pose proof (settled_invariant 0 _ _ _ (Resolved v) _ HM) as H.
        conclude H.
      * pose proof (settled_invariant 0 _ _ _ (Rejected e) _ HM) as H.
        conclude H.
      * pose proof (rule_suspend _ _ _ _ _ _ _ HM Hx) as H.
        conclude H.
  - unfold resume. destruct (suspended ex !! i) as [s|] eqn:Hs; simpl;
      [|by rewrite app_nil_r].
    destruct (s_resume s o) as [v|e|call k] eqn:Hk.
    + apply settled_invariant. by apply rule_resume_settled.
    + apply settled_invariant. by apply rule_resume_settled.
    + simpl. rewrite app_nil_r. by eapply rule_resume_await.
Qed.

Hypothesis rule_socket : forall ex tr state timers,
  Inv ex tr -> Inv (set_socket state timers ex) tr.

Lemma step_invariant ex ev tr :
  Inv ex tr -> Inv (step now ex ev).1 (tr ++ (step now ex ev).2).
Proof.
  intros HI. destruct ev as [data|i o| | | |]; try (by apply job_invariant); simpl.
  4: { destruct (reconnects ex); simpl; rewrite app_nil_r; [done|].
       unfold initializeWebSocket. simpl. by apply (rule_socket ex). }
  all: destruct (readyState ex); simpl; rewrite app_nil_r; try done;
    by apply rule_socket.
Qed.

Lemma run_invariant_from evs : forall ex tr,
  Inv ex tr -> Inv (run now ex evs).1 (tr ++ (run now ex evs).2).
Proof.
  induction evs as [|ev evs IH]; intros ex tr HI; simpl.
  - by rewrite app_nil_r.
  - rewrite app_assoc. apply IH. by apply step_invariant.
Qed.

Lemma run_invariant cfg evs :
  Inv (new_TaskExecutor cfg) [] ->
  Inv (run now (new_TaskExecutor cfg) evs).1 (run now (new_TaskExecutor cfg) evs).2.
Proof. intros H. by apply (run_invariant_from evs _ []). Qed.

End Invariant.

(** ** The admission bound *)

Lemma bounded_run (now : nat -> string) (cfg : TaskExecutorConfig) (evs : list Event) :
  0 <= maxConcurrentTasks cfg ->
  bounded cfg 0 (run now (new_TaskExecutor cfg) evs).1 (run now (new_TaskExecutor cfg) evs).2.
Proof.
  intros Hmax.
  apply (run_invariant now (bounded cfg 0)
           (fun _ _ _ => bounded cfg 1)
           (fun _ ex tr => bounded cfg 0 ex tr /\ ~ full ex)).
  all: unfold bounded, full; simpl.
  all: try solve [intros; repeat match goal with H : _ /\ _ |- _ => destruct H end;
                  subst; simpl in *;
                  rewrite ?Forall_app, ?Forall_cons, ?Forall_nil; simpl;
                  repeat split; first [done | lia]].
  - intros ex tr i d t call k (-> & Hs & Ha & HF) _. repeat split; try done.
    rewrite map_size_insert. destruct (suspended ex !! i); simpl; lia.
  - intros ex tr i s (-> & Hs & Ha & HF) Hi. repeat split; try done.
    rewrite map_size_delete, Hi. simpl.
    assert (size (suspended ex) <> 0%nat)
      by (apply map_size_ne_0_lookup_2 with (i := i); by rewrite Hi).
    lia.
  - intros ex tr i s o call k (-> & Hs & Ha & HF) Hi _. repeat split; try done.
    rewrite map_size_insert, Hi. simpl. lia.
Qed.

(** C1. Along every run of the executor (any interleaving of incoming
    messages and of settlements of the promises the handlers await),
    [activeTaskCount], which covers the activations that are waiting
    for their handler, stays at most [maxConcurrentTasks]; every
    [activeTaskCount++] leaves it within the bound; and a task handed
    to [handleTaskRequest] while [activeTaskCount >= maxConcurrentTasks]
    is appended to the queue and not started. *)
Theorem admission_bound (now : nat -> string) (cfg : TaskExecutorConfig)
    (evs : list Event) :
  0 <= maxConcurrentTasks cfg ->
  let r := run now (new_TaskExecutor cfg) evs in
  Z.of_nat (size (suspended r.1)) <= activeTaskCount r.1 /\
  activeTaskCount r.1 <= maxConcurrentTasks cfg /\
  (forall i d n t, Started i d n t ∈ r.2 -> n <= maxConcurrentTasks cfg) /\
  (forall d ex t,
      activeTaskCount ex >= maxConcurrentTasks (config ex) ->
      handleTaskRequest now d ex t =
      (set_queue (taskQueue ex ++ [t]) ex, [Queued d t])).
Proof.
  intros Hmax r.
  destruct (bounded_run now cfg evs Hmax) as (_ & Hs & Ha & HF).
  repeat split; [subst r; lia|done| |].
  - intros i d n t Hin. rewrite Forall_forall in HF. exact (HF _ Hin).
  - intros d ex t Hfull. apply handleTaskRequest_full. unfold full. lia.
Qed.

(** ** One result for each task *)

Lemma history_app (i : nat) (tr1 tr2 : list Label) :
  history i (tr1 ++ tr2) = (history i tr1 ++ history i tr2)%list.
Proof. apply List.filter_app. Qed.

Lemma status_of_result_message now ex id o :
  status_of (result_message now ex id o) = JStr (outcome_status o).
Proof. destruct o as [v|e]; destruct id; try destruct v; reflexivity. Qed.

Lemma tracked_history waiting count tr tr' j :
  history j tr' = history j tr ->
  tracked waiting count tr j -> tracked waiting count tr' j.
Proof. unfold tracked. by intros ->. Qed.

Local Ltac other_label :=
  rewrite history_app; simpl;
  repeat match goal with
         | H : ?j <> ?i |- context [Nat.eqb ?i ?j] =>
             rewrite (proj2 (Nat.eqb_neq i j)) by (intros ->; by apply H)
         end;
  simpl; by rewrite app_nil_r.

Lemma all_tracked_start ex tr pre d n t :
  history (activations ex) pre = [] ->
  (forall j, history j (tr ++ pre) = history j tr) ->
  all_tracked ex tr ->
  all_tracked_but (activations ex) d t (begin_activation ex)
    (tr ++ pre ++ [Started (activations ex) d n t]).
Proof.
  intros Hpre Hother HI.
  pose proof (HI (activations ex)) as Hi. unfold tracked in Hi.
  destruct (suspended ex !! activations ex) as [s|] eqn:Hs; [lia|].
  rewrite decide_False in Hi by lia.
  repeat split; simpl; [done|lia| |].
  - exists n. rewrite !history_app, Hi, Hpre. simpl. by rewrite Nat.eqb_refl.
  - intros j Hj. specialize (HI j). unfold tracked in *.
    rewrite app_assoc, history_app, Hother. simpl.
    rewrite (proj2 (Nat.eqb_neq (activations ex) j)) by done. simpl. rewrite app_nil_r.
    destruct (suspended ex !! j) as [s|]; [destruct HI; split; [lia|done]|].
    destruct (decide (j < activations ex)%nat).
    + by rewrite decide_True by lia.
    + by rewrite decide_False by lia.
Qed.

Lemma all_tracked_run (now : nat -> string) (cfg : TaskExecutorConfig) (evs : list Event) :
  all_tracked (run now (new_TaskExecutor cfg) evs).1 (run now (new_TaskExecutor cfg) evs).2.
Proof.
  apply (run_invariant now all_tracked all_tracked_but (fun _ => all_tracked)).
  - intros ex tr e HI j. eapply tracked_history; [|apply HI]. other_label.
  - intros ex tr t HI _ j. eapply tracked_history; [|apply (HI j)]. other_label.
  - intros ex tr t HI _.
    apply (all_tracked_start ex tr [Received t] 0); [done| |done].
    intros j. other_label.
  - intros ex tr i d t call k (Hs & Hi & Hh & Ho) _ j. unfold tracked. simpl.
    destruct (decide (j = i)) as [->|Hj].
    + by rewrite lookup_insert_eq.
    + rewrite lookup_insert_ne by done. by apply Ho.
  - intros ex tr i d t o e (Hs & Hi & [n Hh] & Ho) Hid j.
    destruct (decide (j = i)) as [->|Hj].
    + unfold tracked. rewrite Hs, decide_True by done.
      exists d, n, t, o. left.
      rewrite history_app, Hh. simpl. by rewrite Nat.eqb_refl.
    + eapply tracked_history; [|by apply Ho]. other_label.
  - intros ex tr i d t o id (Hs & Hi & [n Hh] & Ho) Hid _ j. simpl.
    destruct (decide (j = i)) as [->|Hj].
    + unfold tracked. rewrite Hs, decide_True by done.
      exists d, n, t, o. right. exists id, (result_message now ex id o).
      split; [done|]. split; [apply status_of_result_message|].
      rewrite history_app, Hh. simpl. by rewrite Nat.eqb_refl.
    + eapply tracked_history; [|by apply Ho]. other_label.
  - done.
  - intros ex tr d nextTask rest HI _ _ j.
    eapply tracked_history; [|apply (HI j)]. other_label.
  - intros ex tr d nextTask rest HI _ _.
    apply (all_tracked_start (set_queue rest ex) tr [Shifted nextTask] (S d)); [done| |done].
    intros j. other_label.
  - intros ex tr i s HI Hs. pose proof (HI i) as Hi. unfold tracked in Hi.
    rewrite Hs in Hi. destruct Hi as [Hlt Hh].
    repeat split; simpl; [by rewrite lookup_delete_eq|done|done|].
    intros j Hj. specialize (HI j). unfold tracked in *.
    by rewrite lookup_delete_ne.
  - intros ex tr i s o call k HI Hs _ j. pose proof (HI j) as Hj.
    unfold tracked in *. simpl. destruct (decide (j = i)) as [->|Hne].
    + rewrite lookup_insert_eq. by rewrite Hs in Hj.
    + by rewrite lookup_insert_ne.
  - done.
  - intros j. unfold tracked. simpl. rewrite lookup_empty.
    destruct (decide (j < 0)%nat); [lia|done].
Qed.

Lemma elem_of_history (i : nat) (l : Label) (tr : list Label) :
  l ∈ history i tr <-> l ∈ tr /\ about i l = true.
Proof. unfold history. rewrite !list_elem_of_In. apply List.filter_In. Qed.

(** Case analysis of a membership in a list that is written out. *)
Local Ltac members H :=
  repeat (apply elem_of_cons in H; destruct H as [H|H];
          [try discriminate H; try (injection H as; subst)|]);
  try (by apply elem_of_nil in H).

(** An activation that is over does nothing more: no later job adds to
    its history. *)
Lemma history_closed (now : nat -> string) (j : nat) (evs : list Event) : forall ex,
  (j < activations ex)%nat -> suspended ex !! j = None ->
  history j (run now ex evs).2 = [].
Proof.
  intros ex Hj Hs.
  pose proof (run_invariant_from now
    (fun ex tr => (j < activations ex)%nat /\ suspended ex !! j = None /\ history j tr = [])
    (fun i _ _ ex tr => (j < activations ex)%nat /\ suspended ex !! j = None /\ j <> i /\
                        history j tr = [])
    (fun _ ex tr => (j < activations ex)%nat /\ suspended ex !! j = None /\
                    history j tr = [])) as H.
  unshelve epose proof (H _ _ _ _ _ _ _ _ _ _ _ _ evs ex [] _) as (_ & _ & Hh);
    [..|exact Hh]; clear H; simpl; try done.
  all: intros; repeat match goal with H : _ /\ _ |- _ => destruct H end;
    rewrite ?history_app; simpl;
    repeat match goal with
           | H : history _ _ = [] |- _ => rewrite H
           | H : ?j <> ?i |- context [Nat.eqb ?i ?j] =>
               rewrite (proj2 (Nat.eqb_neq i j)) by (intros ->; by apply H)
           | |- context [Nat.eqb (activations ?ex) ?j] =>
               rewrite (proj2 (Nat.eqb_neq (activations ex) j)) by lia
           end;
    simpl; repeat split;
    first [ done | lia
          | by rewrite lookup_insert_ne by (intros ->; congruence)
          | by rewrite lookup_delete_ne by (intros ->; congruence)
          | intros ->; congruence
          | intros ->; lia ].
Qed.

(** The slots that the counter holds beyond the waiting activations
    stay held. *)
Lemma held_run (now : nat -> string) (held : Z) (evs : list Event) : forall ex,
  Z.of_nat (size (suspended ex)) + held <= activeTaskCount ex ->
  Z.of_nat (size (suspended (run now ex evs).1)) + held <= activeTaskCount (run now ex evs).1.
Proof.
  intros ex Hex.
  pose proof (run_invariant_from now
    (fun ex _ => Z.of_nat (size (suspended ex)) + held <= activeTaskCount ex)
    (fun _ _ _ ex _ => Z.of_nat (size (suspended ex)) + held + 1 <= activeTaskCount ex)
    (fun _ ex _ => Z.of_nat (size (suspended ex)) + held <= activeTaskCount ex)) as H.
  unshelve epose proof (H _ _ _ _ _ _ _ _ _ _ _ _ evs ex [] Hex) as Hrun;
    [..|exact Hrun]; clear H; simpl; try solve [intros; lia].
  - intros e tr i d t call k Hm _. rewrite map_size_insert.
    destruct (suspended e !! i); simpl; lia.
  - intros e tr i s Hi Hs. rewrite map_size_delete, Hs. simpl.
    assert (size (suspended e) <> 0%nat)
      by (apply map_size_ne_0_lookup_2 with (i := i); by rewrite Hs).
    lia.
  - intros e tr i s o call k Hi Hs _. rewrite map_size_insert, Hs. simpl. lia.
Qed.

(** C2 fails on the code. A task is admitted while the socket is open;
    the socket closes, and the timer of [onclose] replaces it by a
    socket that is connecting; then the handler of the task settles,
    resolved or rejected.  [send] raises in the [try], and again in
    the [catch]: the exception leaves [handleTaskRequest] before
    [activeTaskCount--].  The task is never answered, whatever comes
    next, and the counter keeps its slot for good. *)
Theorem task_settled_while_connecting_is_not_answered (o : Outcome) (evs : list Event) :
  let lost := [onopen; task_request (screenshot "T1"); onclose; reconnect; settle 0 o] in
  let r := run epoch (new_TaskExecutor taskExecutor_config) lost in
  r.2 = [Received (screenshot "T1"); Started 0 0 1 (screenshot "T1");
         Settled 0 o; Escaped InvalidStateError] /\
  activeTaskCount r.1 = 1 /\ suspended r.1 = ∅ /\ sent r.1 = [] /\
  let r' := run epoch (new_TaskExecutor taskExecutor_config) (lost ++ evs) in
  results_of 0 r'.2 = [] /\
  Z.of_nat (size (suspended r'.1)) + 1 <= activeTaskCount r'.1.
Proof.
  intros lost r.
  assert (Hr : r.2 = [Received (screenshot "T1"); Started 0 0 1 (screenshot "T1");
                      Settled 0 o; Escaped InvalidStateError] /\
               activeTaskCount r.1 = 1 /\ suspended r.1 = ∅ /\ sent r.1 = [] /\
               activations r.1 = 1%nat)
    by (subst r lost; destruct o; by vm_compute).
  destruct Hr as (Htr & Ha & Hs & Hsent & Hn).
  do 4 (split; [done|]). intros r'.
  assert (Hr' : r' = after r.2 (run epoch r.1 evs)) by apply run_app.
  rewrite Hr'. split.
  - unfold results_of. rewrite after_snd, history_app, Htr.
    rewrite history_closed; [done|lia|by rewrite Hs].
  - apply held_run. rewrite Ha, Hs. by vm_compute.
Qed.

(** ** A handler settles *)

Lemma connecting_false ex : readyState ex <> CONNECTING -> connecting ex = false.
Proof. unfold connecting. by destruct (readyState ex). Qed.

Lemma resume_final (now : nat -> string) ex i s o outcome :
  suspended ex !! i = Some s ->
  final (s_resume s o) = Some outcome ->
  step now ex (settle i o) =
  settled now (s_depth s) (set_suspended (delete i (suspended ex)) ex) i (s_task s) outcome.
Proof.
  intros Hs Hf. simpl. unfold resume. rewrite Hs.
  destruct (s_resume s o); simpl in Hf; by inversion Hf.
Qed.

Lemma step_settle_final (now : nat -> string) ex i s o outcome :
  suspended ex !! i = Some s ->
  final (s_resume s o) = Some outcome ->
  nullish (s_task s) = false ->
  connecting ex = false ->
  let m := result_message now ex (member (s_task s) "id") outcome in
  step now ex (settle i o) =
    after [Settled i outcome; Sent i m; Finished i]
      match taskQueue ex with
      | [] => (after_finish i m ex, [])
      | nextTask :: rest =>
          after [Shifted nextTask]
            (handleTaskRequest now (S (s_depth s))
               (set_queue rest (after_finish i m ex)) nextTask)
      end.
Proof.
  intros Hs Hf Hobj Hsock m.
  rewrite (resume_final now ex i s o outcome Hs Hf), settled_eq.
  unfold get. rewrite Hobj.
  change (connecting (set_suspended (delete i (suspended ex)) ex)) with (connecting ex).
  rewrite Hsock. reflexivity.
Qed.

(** On a socket that is connecting the report raises, twice, and
    nothing else is done. *)
Lemma step_settle_connecting (now : nat -> string) ex i s o outcome :
  suspended ex !! i = Some s ->
  final (s_resume s o) = Some outcome ->
  nullish (s_task s) = false ->
  connecting ex = true ->
  step now ex (settle i o) =
    (set_suspended (delete i (suspended ex)) ex,
     [Settled i outcome; Escaped InvalidStateError]).
Proof.
  intros Hs Hf Hobj Hsock.
  rewrite (resume_final now ex i s o outcome Hs Hf), settled_eq.
  unfold get. rewrite Hobj.
  change (connecting (set_suspended (delete i (suspended ex)) ex)) with (connecting ex).
  by rewrite Hsock.
Qed.

Lemma executeTask_object task call k :
  executeTask task = Await call k -> nullish task = false.
Proof. unfold executeTask, get. by destruct (nullish task). Qed.

(** A task that waits for its handler is a value with properties:
    [executeTask] raises at once on [undefined] and [null]. *)
Lemma waiting_task_is_object (now : nat -> string) (cfg : TaskExecutorConfig)
    (evs : list Event) (i : nat) (s : Suspended) :
  suspended (run now (new_TaskExecutor cfg) evs).1 !! i = Some s ->
  nullish (s_task s) = false.
Proof.
  set (P := fun ex : TaskExecutor =>
              forall j w, suspended ex !! j = Some w -> nullish (s_task w) = false).
  assert (H : P (run now (new_TaskExecutor cfg) evs).1); [|by apply H].
  apply (run_invariant now (fun ex _ => P ex) (fun _ _ _ ex _ => P ex) (fun _ ex _ => P ex));
    unfold P; simpl; try done.
  - intros ex tr j d t call k HP Hx j' w.
    destruct (decide (j' = j)) as [->|Hne].
    + rewrite lookup_insert_eq. intros [= <-]. simpl. by eapply executeTask_object.
    + rewrite lookup_insert_ne by done. apply HP.
  - intros ex tr j w HP Hj j' w'.
    destruct (decide (j' = j)) as [->|Hne].
    + by rewrite lookup_delete_eq.
    + rewrite lookup_delete_ne by done. apply HP.
  - intros ex tr j w o call k HP Hj _ j' w'.
    destruct (decide (j' = j)) as [->|Hne].
    + rewrite lookup_insert_eq. intros [= <-]. simpl. by eapply HP.
    + rewrite lookup_insert_ne by done. apply HP.
Qed.

(** ** First in, first out *)

Lemma in_order_app (tr ls : list Label) :
  queued_tasks (tr ++ ls) = (queued_tasks tr ++ queued_tasks ls)%list /\
  shifted_tasks (tr ++ ls) = (shifted_tasks tr ++ shifted_tasks ls)%list /\
  received_tasks (tr ++ ls) = (received_tasks tr ++ received_tasks ls)%list /\
  started_tasks (tr ++ ls) = (started_tasks tr ++ started_tasks ls)%list /\
  started_from_queue (tr ++ ls) = (started_from_queue tr ++ started_from_queue ls)%list.
Proof. repeat split; apply omap_app. Qed.

Local Ltac in_order_snoc :=
  repeat match goal with
         | |- context [?f (?tr ++ ?ls)%list] =>
             first [ rewrite (proj1 (in_order_app tr ls))
                   | rewrite (proj1 (proj2 (in_order_app tr ls)))
                   | rewrite (proj1 (proj2 (proj2 (in_order_app tr ls))))
                   | rewrite (proj1 (proj2 (proj2 (proj2 (in_order_app tr ls)))))
                   | rewrite (proj2 (proj2 (proj2 (proj2 (in_order_app tr ls))))) ]
         end;
  simpl; rewrite ?app_nil_r.

Lemma fifo_run (now : nat -> string) (cfg : TaskExecutorConfig) (evs : list Event) :
  0 <= maxConcurrentTasks cfg ->
  fifo cfg (run now (new_TaskExecutor cfg) evs).1 (run now (new_TaskExecutor cfg) evs).2.
Proof.
  intros Hmax.
  apply (run_invariant now (fifo cfg) (fun _ _ _ => fifo cfg) (fun _ => fifo_draining cfg)).
  all: unfold fifo, fifo_draining, in_order, full.
  all: try solve [intros; repeat match goal with H : _ /\ _ |- _ => destruct H end;
                  subst; simpl in *; in_order_snoc;
                  repeat split;
                  first [ done | lia
                        | intros;
                          repeat match goal with
                                 | H : ?P -> _, H' : ?P |- _ => specialize (H H')
                                 end; lia ]].
  - intros ex tr t (Hc & (Hq & Hs & Hr) & Ha & Hne) Hfull. simpl. in_order_snoc.
    rewrite Hc in *. rewrite Hq, Hr, !app_assoc.
    repeat split; first [done | lia | intros; lia].
  - intros ex tr t (Hc & (Hq & Hs & Hr) & Ha & Hne) Hfree. simpl.
    rewrite Hc in *.
    assert (Hempty : taskQueue ex = []).
    { destruct (taskQueue ex) as [|x q]; [done|].
      assert (maxConcurrentTasks cfg <= activeTaskCount ex) by (by apply Hne). lia. }
    in_order_snoc. rewrite Hempty, !app_nil_r in *. rewrite Hq, Hr.
    repeat split; first [done | lia | intros; lia].
  - intros ex tr d nextTask rest (Hc & (Hq & Hs & Hr) & Ha & Hne) Hqueue Hfree. simpl.
    rewrite Hc in *.
    in_order_snoc. rewrite Hq, Hs, Hr, Hqueue, <- !app_assoc. simpl.
    assert (maxConcurrentTasks cfg <= activeTaskCount ex + 1)
      by (apply Hne; by rewrite Hqueue).
    repeat split; first [done | lia | intros; lia].
Qed.

(** What one job takes from the queue it takes from the head, in
    order: while the counter is within the bound, the tasks shifted by
    a chain of activations, followed by the queue it leaves, are the
    queue it found. *)
Lemma settled_takes_from_the_head (now : nat -> string) depth ex i task o :
  activeTaskCount ex <= maxConcurrentTasks (config ex) ->
  let r := settled now depth ex i task o in
  (shifted_tasks r.2 ++ taskQueue r.1)%list = taskQueue ex.
Proof.
  intros Hbound r. subst r.
  set (holds := fun (ex' : TaskExecutor) (tr : list Label) =>
                  config ex' = config ex /\
                  (shifted_tasks tr ++ taskQueue ex')%list = taskQueue ex).
  pose proof (settled_from_invariant now
    (fun ex' tr => holds ex' tr)
    (fun _ _ _ ex' tr => holds ex' tr /\ activeTaskCount ex' <= maxConcurrentTasks (config ex))
    (fun _ ex' tr => holds ex' tr /\ activeTaskCount ex' < maxConcurrentTasks (config ex)))
    as H.
  unfold settled.
  unshelve epose proof (H _ _ _ _ _ _ (taskQueue ex) depth ex i task o [] eq_refl _)
    as [_ Hq]; [..|exact Hq]; clear H; unfold holds, full; simpl; try done.
  all: intros; repeat match goal with H : _ /\ _ |- _ => destruct H end;
    in_order_snoc; repeat split; try done; try lia.
  - exfalso. match goal with H : config _ = config ex |- _ => rewrite H in * end. lia.
  - match goal with
    | H : (_ ++ taskQueue ?e)%list = _, H' : taskQueue ?e = _ |- _ =>
        rewrite H' in H; by rewrite <- app_assoc
    end.
Qed.

(** C3. The queue is first in, first out.  Along every run the tasks
    that were appended to the queue are, in that order, the tasks that
    a finishing activation took from the queue and started, followed
    by the tasks still waiting in the queue; every task taken from the
    queue was started at once (none was put back); and over all, the
    tasks received are started in the order they arrived.  And a slot
    that frees is given to the head of the queue: when the handler of
    any waiting activation settles, however it ends, and the socket
    takes its report, the same job takes the head of the queue and
    starts it, at the bound again; what the job takes from the queue
    is a front part of it, in order, and all of it is started. *)
Theorem fifo_admission (now : nat -> string) (cfg : TaskExecutorConfig)
    (evs : list Event) :
  0 <= maxConcurrentTasks cfg ->
  let r := run now (new_TaskExecutor cfg) evs in
  queued_tasks r.2 = (started_from_queue r.2 ++ taskQueue r.1)%list /\
  shifted_tasks r.2 = started_from_queue r.2 /\
  received_tasks r.2 = (started_tasks r.2 ++ taskQueue r.1)%list /\
  forall i s o outcome,
    suspended r.1 !! i = Some s ->
    final (s_resume s o) = Some outcome ->
    readyState r.1 <> CONNECTING ->
    let job := step now r.1 (settle i o) in
    (shifted_tasks job.2 ++ taskQueue job.1)%list = taskQueue r.1 /\
    started_from_queue job.2 = shifted_tasks job.2 /\
    forall nextTask rest,
      taskQueue r.1 = nextTask :: rest ->
      exists m rest',
        job = after [Settled i outcome; Sent i m; Finished i; Shifted nextTask;
                     Started (activations r.1) (S (s_depth s)) (maxConcurrentTasks cfg)
                       nextTask] rest'.
Proof.
  intros Hmax r.
  destruct (fifo_run now cfg evs Hmax) as (Hc & (Hq & Hsh & Hr) & Ha & Hne).
  fold r in Hc, Hq, Hsh, Hr, Ha, Hne.
  do 3 (split; [done|]).
  intros i s o outcome Hs Hf Hsock%connecting_false job.
  pose proof (waiting_task_is_object now cfg evs i s Hs) as Hobj.
  split; [|split].
  - subst job. rewrite (resume_final now _ i s o outcome Hs Hf).
    rewrite settled_takes_from_the_head; [done|]. simpl. by rewrite Hc.
  - destruct (fifo_run now cfg (evs ++ [settle i o]) Hmax) as (_ & (_ & Hsh' & _) & _).
    rewrite run_snoc in Hsh'. fold r job in Hsh'. simpl in Hsh'.
    revert Hsh'. in_order_snoc. rewrite Hsh. by intros ?%app_inv_head.
  - intros nextTask rest Hqueue.
    assert (Hfull : activeTaskCount r.1 = maxConcurrentTasks cfg)
      by (assert (maxConcurrentTasks cfg <= activeTaskCount r.1)
            by (apply Hne; by rewrite Hqueue); lia).
    subst job. rewrite (step_settle_final now _ i s o outcome Hs Hf Hobj Hsock), Hqueue.
    rewrite handleTaskRequest_free by (unfold full; simpl; rewrite Hc; lia).
    simpl. rewrite !after_after. simpl.
    replace (activeTaskCount r.1 - 1 + 1) with (maxConcurrentTasks cfg) by lia.
    eauto.
Qed.

(** ** A task whose handler throws at once *)

(** A chain of activations only touches the histories of the
    activations it starts. *)
Lemma settled_history (now : nat -> string) (j : nat) depth ex i task o :
  (j < activations ex)%nat -> j <> i ->
  history j (settled now depth ex i task o).2 = [].
Proof.
  intros Hj Hi.
  pose proof (settled_from_invariant now
    (fun ex tr => (j < activations ex)%nat /\ history j tr = [])
    (fun i _ _ ex tr => (j < activations ex)%nat /\ j <> i /\ history j tr = [])
    (fun _ ex tr => (j < activations ex)%nat /\ history j tr = [])) as H.
  unfold settled.
  unshelve epose proof (H _ _ _ _ _ _ (taskQueue ex) depth ex i task o [] eq_refl _)
    as [_ Hh]; [..|exact Hh]; clear H; simpl; try done.
  all: intros; repeat match goal with H : _ /\ _ |- _ => destruct H end;
    rewrite ?history_app; simpl;
    repeat match goal with
           | H : history _ _ = [] |- _ => rewrite H
           | H : ?j <> ?i |- context [Nat.eqb ?i ?j] =>
               rewrite (proj2 (Nat.eqb_neq i j)) by (intros ->; by apply H)
           | |- context [Nat.eqb (activations ?ex) ?j] =>
               rewrite (proj2 (Nat.eqb_neq (activations ex) j)) by lia
           end;
    simpl; repeat split; first [done | lia].
Qed.

Lemma drainQueue_history (now : nat -> string) (j : nat) depth ex :
  (j < activations ex)%nat -> history j (drainQueue now depth ex).2 = [].
Proof.
  intros Hj. unfold drainQueue. destruct (taskQueue ex) as [|nextTask rest]; [done|].
  rewrite after_snd, history_app. simpl.
  destruct (decide (full (set_queue rest ex))) as [Hf|Hf].
  - by rewrite handleTaskRequest_full.
  - rewrite handleTaskRequest_free by done.
    rewrite after_snd, history_app. simpl.
    rewrite (proj2 (Nat.eqb_neq (activations ex) j)) by lia. simpl.
    destruct (executeTask nextTask); simpl; [| |done];
      by rewrite settled_history by (simpl; lia).
Qed.

Lemma content_of_result_message now ex id o :
  status_of (result_message now ex id o) = JStr (outcome_status o) /\
  content_field (result_message now ex id o) "error" =
    match o with
    | Resolved _ => JNull
    | Rejected e => JStr (error_message e)
    end /\
  (forall e, o = Rejected e -> content_field (result_message now ex id o) "result" = JNull).
Proof.
  split; [apply status_of_result_message|].
  split; [|intros e ->; by destruct id].
  destruct o as [v|e]; destruct id; try destruct v; reflexivity.
Qed.

Lemma handleTaskRequest_throws (now : nat -> string) depth ex task e :
  ~ full ex -> executeTask task = Throw e -> nullish task = false ->
  connecting ex = false ->
  let i := activations ex in
  let m := result_message now ex (member task "id") (Rejected e) in
  handleTaskRequest now depth ex task =
    after [Started i depth (activeTaskCount ex + 1) task; Settled i (Rejected e);
           Sent i m; Finished i]
      (drainQueue now depth (after_report m ex)) /\
  results_of i (handleTaskRequest now depth ex task).2 = [m].
Proof.
  intros Hfree Hx Hobj Hsock i m.
  assert (Heq : handleTaskRequest now depth ex task =
    after [Started i depth (activeTaskCount ex + 1) task; Settled i (Rejected e);
           Sent i m; Finished i]
      (drainQueue now depth (after_report m ex))).
  { rewrite handleTaskRequest_free by done. rewrite Hx. simpl.
    rewrite settled_eq. unfold get. rewrite Hobj. simpl.
    change (connecting (begin_activation ex)) with (connecting ex). rewrite Hsock.
    rewrite after_after. simpl. unfold after_report, set_active, socket_send. simpl.
    by replace (activeTaskCount ex + 1 - 1) with (activeTaskCount ex) by lia. }
  split; [done|]. rewrite Heq. unfold results_of.
  rewrite after_snd, history_app, drainQueue_history by (simpl; lia).
  simpl. subst i. by rewrite !Nat.eqb_refl.
Qed.

Lemma get_Normal v k x : get v k = Normal x -> nullish v = false /\ x = member v k.
Proof. unfold get. destruct (nullish v); [done|]. intros [= <-]. done. Qed.

Lemma executeTask_unknown_type task type category :
  get task "type" = Normal type -> known_type type = false ->
  ToString type = Normal category ->
  executeTask task = Throw (Error ("Unknown task type: " ++ category)).
Proof.
  unfold executeTask, known_type. intros -> H Htext. simpl.
  repeat (apply orb_false_elim in H; destruct H as [H ?]).
  repeat match goal with H : is_string _ _ = false |- _ => rewrite H; clear H end.
  by rewrite Htext.
Qed.

(** The [default] case of [executeTask] throws, whatever the type
    is: the error of the code when the type has a text, and the
    [TypeError] of the template literal otherwise. *)
Lemma executeTask_unknown task type :
  get task "type" = Normal type -> known_type type = false ->
  exists e,
    executeTask task = Throw e /\
    forall category, ToString type = Normal category ->
                     e = Error ("Unknown task type: " ++ category).
Proof.
  intros Htype Hunknown. destruct (ToString type) as [text|e] eqn:Htext.
  - exists (Error ("Unknown task type: " ++ text)).
    split; [by apply (executeTask_unknown_type task type)|]. by intros category [= <-].
  - exists e. split; [|done].
    revert Hunknown. unfold executeTask, known_type. rewrite Htype. simpl. intros H.
    repeat (apply orb_false_elim in H; destruct H as [H ?]).
    repeat match goal with H : is_string _ _ = false |- _ => rewrite H; clear H end.
    by rewrite Htext.
Qed.

(** C4. A task whose [type] is none of the four known ones, handed to
    [handleTaskRequest] while a slot is free and the socket is not
    still connecting (as it is when a message has just arrived or
    another task was just answered), makes the executor send exactly
    one [task_result] for it, with status ["failed"] and the message
    of the error that [executeTask] threw; when the type has a text
    [category] (a text is its own text) that error is
    ["Unknown task type: "] followed by [category].  The counter is
    then back to what it was before the task was started, and the
    executor goes on with the queue as after any other task. *)
Theorem unknown_task_type (now : nat -> string) (depth : nat) (ex : TaskExecutor)
    (task type : JSValue) :
  get task "type" = Normal type ->
  known_type type = false ->
  activeTaskCount ex < maxConcurrentTasks (config ex) ->
  readyState ex <> CONNECTING ->
  let i := activations ex in
  let r := handleTaskRequest now depth ex task in
  exists e m,
    (forall category,
        prints type category -> e = Error ("Unknown task type: " ++ category)) /\
    results_of i r.2 = [m] /\
    status_of m = JStr "failed" /\
    content_field m "error" = JStr (error_message e) /\
    r = after [Started i depth (activeTaskCount ex + 1) task;
               Settled i (Rejected e); Sent i m; Finished i]
          (drainQueue now depth (after_report m ex)) /\
    activeTaskCount (after_report m ex) = activeTaskCount ex /\
    (taskQueue ex = [] -> r.1 = after_report m ex).
Proof.
  intros Htype Hunknown Hfree Hsock%connecting_false i r.
  destruct (get_Normal _ _ _ Htype) as [Hobj _].
  assert (Hnf : ~ full ex) by (unfold full; lia).
  destruct (executeTask_unknown _ _ Htype Hunknown) as (e & Hx & Htext).
  destruct (handleTaskRequest_throws now depth ex task _ Hnf Hx Hobj Hsock) as [Heq Hres].
  fold i r in Heq, Hres.
  set (m := result_message now ex (member task "id") (Rejected e)) in *.
  exists e, m.
  destruct (content_of_result_message now ex (member task "id") (Rejected e))
    as (Hst & Herr & _).
  split; [intros category [_ Hc]; by apply Htext|].
  repeat split; try done.
  intros Hq. rewrite Heq. unfold drainQueue. simpl. by rewrite Hq.
Qed.

(** ** Finishing a task *)

(** C5, as the code has it. When the handler of a waiting activation
    settles, resolved or thrown, and the socket takes the report (it
    is not still connecting), the executor sends the one
    [task_result] of its task, then decrements [activeTaskCount], and
    then, when the queue is not empty, takes the head of the queue and
    calls [handleTaskRequest] on it: one task for each activation that
    finishes, by a call nested one level below the finishing
    activation, which starts the task when the counter was within the
    bound. *)
Theorem finish_then_next (now : nat -> string) (ex : TaskExecutor) (i : nat)
    (s : Suspended) (o outcome : Outcome) :
  suspended ex !! i = Some s ->
  final (s_resume s o) = Some outcome ->
  nullish (s_task s) = false ->
  readyState ex <> CONNECTING ->
  activeTaskCount ex <= maxConcurrentTasks (config ex) ->
  let m := result_message now ex (member (s_task s) "id") outcome in
  let ex1 := after_finish i m ex in
  step now ex (settle i o) =
    after [Settled i outcome; Sent i m; Finished i]
      match taskQueue ex with
      | [] => (ex1, [])
      | nextTask :: rest =>
          after [Shifted nextTask]
            (handleTaskRequest now (S (s_depth s)) (set_queue rest ex1) nextTask)
      end /\
  forall nextTask rest,
    taskQueue ex = nextTask :: rest ->
    exists r,
      handleTaskRequest now (S (s_depth s)) (set_queue rest ex1) nextTask =
      after [Started (activations ex) (S (s_depth s)) (activeTaskCount ex - 1 + 1) nextTask] r.
Proof.
  intros Hs Hf Hobj Hsock%connecting_false Hbound m ex1. split.
  - by apply step_settle_final.
  - intros nextTask rest Hq.
    assert (Hnf : ~ full (set_queue rest ex1)) by (unfold full; simpl; lia).
    rewrite handleTaskRequest_free by done. simpl. eauto.
Qed.

(** The nesting of the recursive calls grows with the queue. *)
Lemma piled_settle (now : nat -> string) (k q : nat) (ex : TaskExecutor) :
  piled k (S q) ex ->
  exists j i n,
    piled (S k) q (step now ex (settle j (Resolved JNull))).1 /\
    Started i (S k) n screenshot_task ∈ (step now ex (settle j (Resolved JNull))).2.
Proof.
  intros (Hc & Hopen & Ha & Hq & j & s & Hs & Ht & Hd & Hk).
  exists j, (activations ex), (activeTaskCount ex - 1 + 1).
  assert (Hf : final (s_resume s (Resolved JNull)) = Some (Resolved JNull))
    by (by rewrite Hk).
  assert (Hobj : nullish (s_task s) = false) by (by rewrite Ht).
  assert (Hsock : connecting ex = false) by (unfold connecting; by rewrite Hopen).
  rewrite (step_settle_final now ex j s _ _ Hs Hf Hobj Hsock), Hq, Hd. simpl.
  rewrite handleTaskRequest_free by (unfold full; simpl; rewrite Hc, Ha; simpl; lia).
  simpl. split.
  - unfold piled. simpl. split; [done|split; [done|split; [lia|split; [done|]]]].
    eexists _, _. split; [apply lookup_insert_eq|done].
  - do 4 (apply elem_of_cons; right). apply elem_of_cons. by left.
Qed.

Lemma piled_climb (now : nat -> string) (q : nat) : forall k ex,
  piled k (S q) ex ->
  exists evs i n, Started i (k + S q) n screenshot_task ∈ (run now ex evs).2.
Proof.
  induction q as [|q IH]; intros k ex HP;
    destruct (piled_settle now _ _ _ HP) as (j & i & n & HP' & Hin).
  - exists [settle j (Resolved JNull)], i, n. simpl.
    rewrite app_nil_r. by replace (k + 1)%nat with (S k) by lia.
  - destruct (IH _ _ HP') as (evs & i' & n' & Hin').
    exists (settle j (Resolved JNull) :: evs), i', n'. simpl.
    apply elem_of_app. right.
    by replace (k + S (S q))%nat with (S k + S q)%nat by lia.
Qed.

Lemma piled_arrivals (now : nat -> string) (k q : nat) : forall q0 ex,
  piled k q0 ex ->
  piled k (q0 + q) (run now ex (replicate q (task_request screenshot_task))).1.
Proof.
  induction q as [|q IH]; intros q0 ex HP; simpl.
  - by replace (q0 + 0)%nat with q0 by lia.
  - replace (q0 + S q)%nat with (S q0 + q)%nat by lia. apply IH.
    destruct HP as (Hc & Hopen & Ha & Hq & Hw).
    unfold socket_onmessage. simpl.
    rewrite handleTaskRequest_full by (unfold full; rewrite Hc, Ha; simpl; lia).
    unfold piled. simpl. split; [done|split; [done|split; [done|split; [|done]]]].
    by rewrite Hq, replicate_cons_app.
Qed.

Lemma piled_initial (now : nat -> string) :
  piled 0 0 (run now (new_TaskExecutor taskExecutor_config)
               (onopen :: replicate 5 (task_request screenshot_task))).1.
Proof.
  unfold piled. split; [done|split; [done|split; [done|split; [done|]]]].
  exists 4%nat. eexists. split; [by vm_compute|done].
Qed.

(** C5 fails as stated: the queue is not drained by a loop but by a
    recursive call in each finishing activation, and no bound holds on
    the nesting depth of the activations of the exported executor. *)
Lemma nesting_depth_unbounded :
  ~ exists bound : nat,
      forall evs i d n t,
        Started i d n t ∈ (run epoch (new_TaskExecutor taskExecutor_config) evs).2 ->
        (d <= bound)%nat.
Proof.
  intros [bound Hb].
  pose proof (piled_arrivals epoch 0 (S bound) 0 _ (piled_initial epoch)) as HP.
  destruct (piled_climb epoch bound 0 _ HP) as (evs & i & n & Hin).
  set (arrivals := ((onopen :: replicate 5 (task_request screenshot_task))
                    ++ replicate (S bound) (task_request screenshot_task))%list).
  assert (Hin' : Started i (S bound) n screenshot_task
                 ∈ (run epoch (new_TaskExecutor taskExecutor_config) (arrivals ++ evs)).2).
  { unfold arrivals. rewrite <- app_assoc, !run_app, !after_snd.
    apply elem_of_app. right. apply elem_of_app. right. exact Hin. }
  apply Hb in Hin'. lia.
Qed.

(** ** Unknown actions *)

Lemma is_string_true v lit : is_string v lit = true -> v = JStr lit.
Proof. destruct v; simpl; try done. by intros ->%String.eqb_eq. Qed.

(** The [default] case of a handler throws, whatever the action is:
    the error of the code when the action has a text, and the
    [TypeError] of the template literal otherwise. *)
Lemma executeTask_unrecognised task parameters unknown action :
  get task "parameters" = Normal parameters ->
  nullish parameters = false ->
  unrecognised task parameters unknown action ->
  exists e,
    executeTask task = Throw e /\
    forall text, ToString action = Normal text -> e = Error (unknown ++ text).
Proof.
  intros Hp Hobj Hu. destruct (get_Normal _ _ _ Hp) as [Htask ->].
  exists (match ToString action with
          | Normal text => Error (unknown ++ text)
          | Thrown e => e
          end).
  split; [|intros text ->; done].
  unfold executeTask, get. rewrite Htask. simpl.
  destruct Hu as [(Ht & -> & Ha & ->)|[(Ht & -> & Ha & ->)|(Ht & -> & Ha & ->)]];
    rewrite (is_string_true _ _ Ht); simpl;
    unfold executeDOMTask, executeUITask, executeDataExtractionTask, get, destructure;
    rewrite Htask; simpl; rewrite Hobj; simpl;
    unfold dom_action, ui_action, extraction_type in Ha;
    repeat (apply orb_false_elim in Ha; destruct Ha as [Ha ?]);
    repeat match goal with H : is_string _ _ = false |- _ => rewrite H; clear H end;
    match goal with |- context [ToString ?v] => by destruct (ToString v) end.
Qed.

(** C6, as the code has it. A task of type [DOM_MANIPULATION] or
    [UI_AUTOMATION] whose [parameters.action], or of type
    [DATA_EXTRACTION] whose [parameters.type], is not a case of the
    handler, handed to [handleTaskRequest] while a slot is free and
    the socket is not still connecting, makes the executor send
    exactly one [task_result], with status ["failed"] and the message
    of the error that the handler threw; when the action has a text
    (a text is its own text) that error is
    ["Unknown DOM action: <action>"], ["Unknown UI action: <action>"]
    or ["Unknown extraction type: <type>"].  The counter is then back
    to what it was, and the executor goes on with the queue. *)
Theorem unknown_action (now : nat -> string) (depth : nat) (ex : TaskExecutor)
    (task parameters : JSValue) (unknown : string) (action : JSValue) :
  get task "parameters" = Normal parameters ->
  nullish parameters = false ->
  unrecognised task parameters unknown action ->
  activeTaskCount ex < maxConcurrentTasks (config ex) ->
  readyState ex <> CONNECTING ->
  let i := activations ex in
  let r := handleTaskRequest now depth ex task in
  exists e m,
    (forall text, prints action text -> e = Error (unknown ++ text)) /\
    results_of i r.2 = [m] /\
    status_of m = JStr "failed" /\
    content_field m "error" = JStr (error_message e) /\
    r = after [Started i depth (activeTaskCount ex + 1) task;
               Settled i (Rejected e); Sent i m; Finished i]
          (drainQueue now depth (after_report m ex)) /\
    activeTaskCount (after_report m ex) = activeTaskCount ex /\
    (taskQueue ex = [] -> r.1 = after_report m ex).
Proof.
  intros Hp Hobj Hu Hfree Hsock%connecting_false i r.
  destruct (get_Normal _ _ _ Hp) as [Htask _].
  assert (Hnf : ~ full ex) by (unfold full; lia).
  destruct (executeTask_unrecognised _ _ _ _ Hp Hobj Hu) as (e & Hx & Htext).
  destruct (handleTaskRequest_throws now depth ex task _ Hnf Hx Htask Hsock) as [Heq Hres].
  fold i r in Heq, Hres.
  set (m := result_message now ex (member task "id") (Rejected e)) in *.
  exists e, m.
  destruct (content_of_result_message now ex (member task "id") (Rejected e))
    as (Hst & Herr & _).
  split; [intros text [_ Hc]; by apply Htext|].
  repeat split; try done.
  intros Hq. rewrite Heq. unfold drainQueue. simpl. by rewrite Hq.
Qed.

(** C6 fails as stated: the error of an extraction of an unknown kind
    is not of the form ["Unknown <category> action: <action>"],
    whatever is taken for the category. *)
Lemma unknown_extraction_type_message :
  let r := run epoch (new_TaskExecutor taskExecutor_config)
             [onopen; task_request pdf_extraction_task] in
  exists m,
    sent r.1 = [m] /\
    status_of m = JStr "failed" /\
    content_field m "error" = JStr "Unknown extraction type: PDF" /\
    forall category,
      content_field m "error" <> JStr (spec_action_error category "PDF").
Proof.
  eexists. split; [reflexivity|]. split; [reflexivity|]. split; [reflexivity|].
  intros category H. simpl in H. injection H as H.
  assert (H' : "extraction type: PDF" = category +:+ " action: PDF") by exact H.
  clear H.
  do 20 (destruct category as [|? category]; simpl in H';
         [discriminate H'|injection H' as _ H']).
  destruct category; discriminate H'.
Qed.

(** ** The messages sent *)

(** Whatever holds of every message that [sendTaskResult] can write
    holds of every message sent along a run. *)
Lemma sent_invariant (now : nat -> string) (P : JSValue -> Prop) :
  (forall ex id o, P (result_message now ex id o)) ->
  forall cfg evs m, m ∈ sent (run now (new_TaskExecutor cfg) evs).1 -> P m.
Proof.
  intros HP cfg evs.
  pose proof (run_invariant now (fun ex _ => Forall P (sent ex))
                (fun _ _ _ ex _ => Forall P (sent ex))
                (fun _ ex _ => Forall P (sent ex))) as H.
  unshelve epose proof (H _ _ _ _ _ _ _ _ _ _ _ _ cfg evs _) as HF; simpl; try done.
  - intros ex tr i d t o id HF _ _. apply Forall_app. split; [done|].
    apply Forall_singleton, HP.
  - intros m Hm. rewrite Forall_forall in HF. by apply HF.
Qed.

Lemma result_message_shape (now : nat -> string) ex id o :
  task_result_shape now (result_message now ex id o).
Proof.
  unfold task_result_shape, result_message.
  destruct o as [v|e].
  - exists (match id with JUndefined => [] | _ => [("task_id", JSON_stringify id)] end),
      "completed", (JSON_stringify (default_null v)), JNull, (length (sent ex)).
    split; [by destruct id; destruct v|].
    split; [destruct id; (by left) || (right; eexists; split; [|done]; done)|].
    split; [by left|]. split; [by destruct v|done].
  - exists (match id with JUndefined => [] | _ => [("task_id", JSON_stringify id)] end),
      "failed", JNull, (JStr (error_message e)), (length (sent ex)).
    split; [by destruct id|].
    split; [destruct id; (by left) || (right; eexists; split; [|done]; done)|].
    split; [by right|]. done.
Qed.

(** C7, as the code has it. Every message the executor sends is an
    object with [message_type] ["task_result"] and a [content] that
    holds [task_id] (when the task has an [id]), a [status] that is
    ["completed"] or ["failed"], a [result] that is any value of the
    handler or [null], an [error] that is a text or [null], and a
    [timestamp] that is a text of the clock. *)
Theorem task_result_wire_shape (now : nat -> string) (cfg : TaskExecutorConfig)
    (evs : list Event) (m : JSValue) :
  m ∈ sent (run now (new_TaskExecutor cfg) evs).1 ->
  task_result_shape now m.
Proof. apply sent_invariant. apply result_message_shape. Qed.

(** C7 fails as stated: a click on an element that the page does not
    have is answered with the result [false], which is neither an
    object nor [null]; so the content of the message, and with it the
    message, is not of the shape the specification gives. *)
Lemma click_result_is_a_boolean :
  let r := run epoch (new_TaskExecutor taskExecutor_config) click_on_nothing in
  exists m,
    sent r.1 = [m] /\
    status_of m = JStr "completed" /\
    content_field m "result" = JBool false /\
    spec_content_shape (member m "content") = false /\
    spec_wire_shape m = false.
Proof. eexists. by vm_compute. Qed.

(** C10. Every message the executor sends pairs result and error with
    its status: with status ["completed"] the error is [null], with
    status ["failed"] the result is [null], and so no message carries
    both a result and an error that are not [null]. *)
Theorem result_and_error_paired (now : nat -> string) (cfg : TaskExecutorConfig)
    (evs : list Event) (m : JSValue) :
  m ∈ sent (run now (new_TaskExecutor cfg) evs).1 ->
  (status_of m = JStr "completed" -> content_field m "error" = JNull) /\
  (status_of m = JStr "failed" -> content_field m "result" = JNull) /\
  (content_field m "result" = JNull \/ content_field m "error" = JNull).
Proof.
  intros Hm.
  assert (Hp : paired m).
  { revert Hm. apply sent_invariant. intros ex id o. unfold paired.
    destruct (content_of_result_message now ex id o) as (Hst & Herr & Hres).
    destruct o as [v|e]; [left|right]; split; try done. by apply (Hres e). }
  destruct Hp as [[Hst He]|[Hst Hr]]; rewrite Hst.
  - split; [done|]. split; [done|]. by right.
  - split; [done|]. split; [done|]. by left.
Qed.

(** ** Messages that are not well-formed task requests *)

(** A payload that is not JSON, or a message whose [message_type] is
    not ["task_request"], changes nothing. *)
Lemma onmessage_ignored (now : nat -> string) (ex : TaskExecutor) (data : WireData) :
  match data with
  | NotJSON _ => True
  | JSONText message => is_string (member message "message_type") "task_request" = false
  end ->
  (step now ex (onmessage data)).1 = ex.
Proof.
  destruct data as [text|message]; simpl; [done|].
  unfold socket_onmessage, get. simpl. intros H.
  destruct (nullish message); simpl; [done|]. by rewrite H.
Qed.

Lemma starved_step (now : nat -> string) cfg (ex : TaskExecutor) (ev : Event) :
  starved cfg ex -> starved cfg (step now ex ev).1.
Proof.
  intros (Hc & Hfull & Hs & Hsent). destruct ev as [data|i o| | | |]; simpl.
  - unfold socket_onmessage.
    destruct (JSON_parse data) as [message|e]; simpl; [|done].
    destruct (get message "message_type") as [mt|e]; simpl; [|done].
    destruct (is_string mt "task_request"); simpl; [|done].
    destruct (get message "content") as [content|e]; simpl; [|done].
    by rewrite handleTaskRequest_full by (unfold full; by rewrite Hc).
  - unfold resume. by rewrite Hs, lookup_empty.
  - by destruct (readyState ex).
  - by destruct (readyState ex).
  - by destruct (readyState ex).
  - by destruct (reconnects ex).
Qed.

Lemma starved_run (now : nat -> string) cfg (evs : list Event) : forall ex,
  starved cfg ex -> starved cfg (run now ex evs).1.
Proof.
  induction evs as [|ev evs IH]; intros ex H; simpl; [done|].
  apply IH. by apply starved_step.
Qed.

(** C8 fails on the code. A [task_request] without [content], which
    the open socket delivers, is not ignored: the executor counts one
    more active task, reading
    [task.type] raises, reading [task.id] in the [catch] raises again,
    and the exception leaves [handleTaskRequest] before
    [activeTaskCount--]: the counter stays at 1 with no task running
    and nothing sent.  Five of them bring the exported executor to its
    bound for good: whatever comes next, no activation ever waits and
    no message is ever sent. *)
Theorem task_request_without_content_leaks_a_slot :
  let r := run epoch (new_TaskExecutor taskExecutor_config) [onopen; bare_task_request] in
  activeTaskCount r.1 = 1 /\ suspended r.1 = ∅ /\ taskQueue r.1 = [] /\ sent r.1 = [] /\
  r.2 = [Received JUndefined;
         Started 0 0 1 JUndefined;
         Settled 0 (Rejected (TypeError "Cannot read properties of undefined (reading 'type')"));
         Escaped (TypeError "Cannot read properties of undefined (reading 'id')")] /\
  forall evs,
    let r := run epoch (new_TaskExecutor taskExecutor_config)
               ((onopen :: replicate 5 bare_task_request) ++ evs) in
    activeTaskCount r.1 >= 5 /\ suspended r.1 = ∅ /\ sent r.1 = [].
Proof.
  do 5 (split; [done|]). intros evs r. subst r. rewrite run_app. simpl.
  match goal with
  | |- context [run epoch ?ex evs] =>
      assert (H : starved taskExecutor_config ex) by (by vm_compute);
      destruct (starved_run epoch _ evs ex H) as (Hc & Hf & Hs & Hsent)
  end.
  simpl in Hf. split; [lia|done].
Qed.

(** ** The configuration *)






(** ** Worked runs *)

Local Ltac listed := vm_compute; repeat constructor.

Lemma admission_bound_witness :
  0 <= maxConcurrentTasks two_slots /\
  let r := run epoch (new_TaskExecutor two_slots) three_tasks in
  Z.of_nat (size (suspended r.1)) <= activeTaskCount r.1 /\
  activeTaskCount r.1 <= maxConcurrentTasks two_slots /\
  (forall i d n t, Started i d n t ∈ r.2 -> n <= maxConcurrentTasks two_slots) /\
  (forall d ex t,
      activeTaskCount ex >= maxConcurrentTasks (config ex) ->
      handleTaskRequest epoch d ex t =
      (set_queue (taskQueue ex ++ [t]) ex, [Queued d t])).
Proof.
  split; [simpl; lia|].
  apply (admission_bound epoch two_slots three_tasks). simpl. lia.
Defined.

Lemma fifo_admission_witness :
  let r := run epoch (new_TaskExecutor two_slots) five_arrivals in
  let o := Resolved (JStr "data:image/png;base64,AAAA") in
  let job := step epoch r.1 (settle 1 o) in
  0 <= maxConcurrentTasks two_slots /\
  taskQueue r.1 = [screenshot "T3"; screenshot "T4"; screenshot "T5"] /\
  queued_tasks r.2 = (started_from_queue r.2 ++ taskQueue r.1)%list /\
  shifted_tasks r.2 = started_from_queue r.2 /\
  received_tasks r.2 = (started_tasks r.2 ++ taskQueue r.1)%list /\
  (shifted_tasks job.2 ++ taskQueue job.1)%list = taskQueue r.1 /\
  started_from_queue job.2 = shifted_tasks job.2 /\
  (exists m rest',
      job = after [Settled 1 o; Sent 1 m; Finished 1; Shifted (screenshot "T3");
                   Started 2 1 2 (screenshot "T3")] rest') /\
  started_tasks (run epoch r.1 [settle 1 o; settle 0 o; settle 2 o]).2
    = [screenshot "T3"; screenshot "T4"; screenshot "T5"].
Proof.
  intros r o job.
  assert (Hmax : 0 <= maxConcurrentTasks two_slots) by (simpl; lia).
  assert (Hq : taskQueue r.1 = [screenshot "T3"; screenshot "T4"; screenshot "T5"])
    by (vm_compute; reflexivity).
  assert (Hs : suspended r.1 !! 1%nat = Some second_waiting) by (vm_compute; reflexivity).
  assert (Hsock : readyState r.1 <> CONNECTING) by (vm_compute; discriminate).
  destruct (fifo_admission epoch two_slots five_arrivals Hmax) as (H1 & H2 & H3 & H4).
  destruct (H4 1%nat second_waiting o o Hs eq_refl Hsock) as (H5 & H6 & H7).
  do 7 (split; [done|]). split.
  - exact (H7 _ _ Hq).
  - vm_compute. reflexivity.
Defined.

Lemma unknown_task_type_witness :
  let ex := taskExecutor_open in
  get bogus_task "type" = Normal (JStr "BOGUS") /\
  known_type (JStr "BOGUS") = false /\
  activeTaskCount ex < maxConcurrentTasks (config ex) /\
  readyState ex <> CONNECTING /\
  prints (JStr "BOGUS") "BOGUS" /\
  let r := handleTaskRequest epoch 0 ex bogus_task in
  exists e m,
    (forall category,
        prints (JStr "BOGUS") category -> e = Error ("Unknown task type: " ++ category)) /\
    results_of 0 r.2 = [m] /\
    status_of m = JStr "failed" /\
    content_field m "error" = JStr (error_message e) /\
    r = after [Started 0 0 (activeTaskCount ex + 1) bogus_task;
               Settled 0 (Rejected e); Sent 0 m; Finished 0]
          (drainQueue epoch 0 (after_report m ex)) /\
    activeTaskCount (after_report m ex) = activeTaskCount ex /\
    (taskQueue ex = [] -> r.1 = after_report m ex).
Proof.
  assert (Hsock : readyState taskExecutor_open <> CONNECTING) by (vm_compute; discriminate).
  split; [reflexivity|]. split; [reflexivity|].
  split; [simpl; lia|]. split; [exact Hsock|]. split; [split; reflexivity|].
  apply (unknown_task_type epoch 0 taskExecutor_open bogus_task (JStr "BOGUS"));
    [reflexivity|reflexivity|simpl; lia|exact Hsock].
Defined.

Lemma finish_then_next_witness :
  let ex := (run epoch (new_TaskExecutor two_slots) three_arrivals).1 in
  let o := Resolved (JStr "data:image/png;base64,AAAA") in
  suspended ex !! 0%nat = Some first_waiting /\
  final (s_resume first_waiting o) = Some o /\
  nullish (s_task first_waiting) = false /\
  readyState ex <> CONNECTING /\
  activeTaskCount ex <= maxConcurrentTasks (config ex) /\
  let m := result_message epoch ex (member (s_task first_waiting) "id") o in
  let ex1 := after_finish 0 m ex in
  step epoch ex (settle 0 o) =
    after [Settled 0 o; Sent 0 m; Finished 0]
      match taskQueue ex with
      | [] => (ex1, [])
      | nextTask :: rest =>
          after [Shifted nextTask]
            (handleTaskRequest epoch (S (s_depth first_waiting)) (set_queue rest ex1)
               nextTask)
      end /\
  forall nextTask rest,
    taskQueue ex = nextTask :: rest ->
    exists r,
      handleTaskRequest epoch (S (s_depth first_waiting)) (set_queue rest ex1) nextTask =
      after [Started (activations ex) (S (s_depth first_waiting))
               (activeTaskCount ex - 1 + 1) nextTask] r.
Proof.
  assert (H : suspended (run epoch (new_TaskExecutor two_slots) three_arrivals).1 !! 0%nat
              = Some first_waiting) by (vm_compute; reflexivity).
  assert (Hsock : readyState (run epoch (new_TaskExecutor two_slots) three_arrivals).1
                  <> CONNECTING) by (vm_compute; discriminate).
  split; [exact H|]. split; [reflexivity|]. split; [reflexivity|].
  split; [exact Hsock|]. split; [vm_compute; discriminate|].
  apply (finish_then_next epoch _ 0 first_waiting
           (Resolved (JStr "data:image/png;base64,AAAA"))
           (Resolved (JStr "data:image/png;base64,AAAA")) H);
    [reflexivity|reflexivity|exact Hsock|vm_compute; discriminate].
Defined.

Lemma unknown_action_witness :
  let ex := taskExecutor_open in
  let parameters := JObj [("type", JStr "PDF")] in
  get pdf_extraction_task "parameters" = Normal parameters /\
  nullish parameters = false /\
  unrecognised pdf_extraction_task parameters "Unknown extraction type: " (JStr "PDF") /\
  activeTaskCount ex < maxConcurrentTasks (config ex) /\
  readyState ex <> CONNECTING /\
  prints (JStr "PDF") "PDF" /\
  let r := handleTaskRequest epoch 0 ex pdf_extraction_task in
  exists e m,
    (forall text,
        prints (JStr "PDF") text -> e = Error ("Unknown extraction type: " ++ text)) /\
    results_of 0 r.2 = [m] /\
    status_of m = JStr "failed" /\
    content_field m "error" = JStr (error_message e) /\
    r = after [Started 0 0 (activeTaskCount ex + 1) pdf_extraction_task;
               Settled 0 (Rejected e); Sent 0 m; Finished 0]
          (drainQueue epoch 0 (after_report m ex)) /\
    activeTaskCount (after_report m ex) = activeTaskCount ex /\
    (taskQueue ex = [] -> r.1 = after_report m ex).
Proof.
  assert (H : unrecognised pdf_extraction_task (JObj [("type", JStr "PDF")])
                "Unknown extraction type: " (JStr "PDF"))
    by (right; right; repeat split; reflexivity).
  assert (Hsock : readyState taskExecutor_open <> CONNECTING) by (vm_compute; discriminate).
  split; [reflexivity|]. split; [reflexivity|]. split; [exact H|]. split; [simpl; lia|].
  split; [exact Hsock|]. split; [split; reflexivity|].
  apply (unknown_action epoch 0 taskExecutor_open pdf_extraction_task
           (JObj [("type", JStr "PDF")]) "Unknown extraction type: " (JStr "PDF"));
    [reflexivity|reflexivity|exact H|simpl; lia|exact Hsock].
Defined.

Lemma task_result_wire_shape_witness :
  click_result_message
    ∈ sent (run epoch (new_TaskExecutor taskExecutor_config) click_on_nothing).1 /\
  task_result_shape epoch click_result_message.
Proof.
  assert (H : click_result_message
              ∈ sent (run epoch (new_TaskExecutor taskExecutor_config) click_on_nothing).1)
    by listed.
  split; [exact H|].
  exact (task_result_wire_shape epoch taskExecutor_config click_on_nothing _ H).
Defined.


Lemma result_and_error_paired_witness :
  click_result_message
    ∈ sent (run epoch (new_TaskExecutor taskExecutor_config) click_on_nothing).1 /\
  (status_of click_result_message = JStr "completed" ->
   content_field click_result_message "error" = JNull) /\
  (status_of click_result_message = JStr "failed" ->
   content_field click_result_message "result" = JNull) /\
  (content_field click_result_message "result" = JNull \/
   content_field click_result_message "error" = JNull).
Proof.
  assert (H : click_result_message
              ∈ sent (run epoch (new_TaskExecutor taskExecutor_config) click_on_nothing).1)
    by listed.
  split; [exact H|].
  exact (result_and_error_paired epoch taskExecutor_config click_on_nothing _ H).
Defined.

(** * Further properties of the executor *)

(** ** The counter and the queue between jobs *)

(** X1. No task waits while a slot is free: along every run, whenever
    the queue is not empty the counter is exactly at the bound. *)
Theorem queue_waits_only_at_the_bound (now : nat -> string) (cfg : TaskExecutorConfig)
    (evs : list Event) :
  0 <= maxConcurrentTasks cfg ->
  let ex := (run now (new_TaskExecutor cfg) evs).1 in
  taskQueue ex <> [] ->
  activeTaskCount ex = maxConcurrentTasks cfg.
Proof.
  intros Hmax ex Hq.
  destruct (fifo_run now cfg evs Hmax) as (_ & _ & Hle & Hge).
  fold ex in Hle, Hge. specialize (Hge Hq). lia.
Qed.

Lemma counted_job (now : nat -> string) (ex : TaskExecutor) (ev : Event) (tr : list Label) :
  match ev with
  | onmessage _ | settle _ _ => True
  | _ => False
  end ->
  in_step 0 ex tr -> in_step 0 (step now ex ev).1 (tr ++ (step now ex ev).2).
Proof.
  apply (job_invariant now (in_step 0)
           (fun i _ t ex tr =>
              connecting ex = false /\
              (Forall received_is_object tr ->
               counted 1 ex /\ nullish t = false /\
               suspended ex !! i = None /\ (i < activations ex)%nat))
           (fun _ => in_step 0));
    unfold in_step, counted, connecting; simpl.
  - intros e tr' err [Hsock HI]. split; [done|]. intros HF.
    apply Forall_app in HF as [HF _]. by apply HI.
  - intros e tr' t [Hsock HI] _. split; [done|]. intros HF.
    apply Forall_app in HF as [HF Ht].
    destruct (HI HF) as (Hs & Hk & Hq). apply Forall_cons in Ht as [Ht _].
    split; [done|]. split; [done|]. apply Forall_app. split; [done|].
    by apply Forall_singleton.
  - intros e tr' t [Hsock HI] _. split; [done|]. intros HF.
    apply Forall_app in HF as [HF Ht].
    destruct (HI HF) as (Hs & Hk & Hq). apply Forall_cons in Ht as [Ht _].
    split; [|split; [done|split; [|lia]]].
    + split; [lia|]. split; [|done]. intros j s Hj.
      destruct (Hk j s Hj). split; [lia|done].
    + destruct (suspended e !! activations e) as [s|] eqn:Hi; [|done].
      destruct (Hk _ _ Hi). lia.
  - intros e tr' i d t call k [Hsock HM] _. split; [done|]. intros HF.
    destruct (HM HF) as ((Hs & Hk & Hq) & Ht & Hi & Hlt).
    split; [rewrite map_size_insert, Hi; simpl; lia|]. split; [|done].
    intros j s. destruct (decide (j = i)) as [->|Hne].
    + rewrite lookup_insert_eq. by intros [= <-].
    + rewrite lookup_insert_ne by done. apply Hk.
  - intros e tr' i d t o err [Hsock HM] Hraised. split; [done|]. intros HF.
    apply Forall_app in HF as [HF _]. destruct (HM HF) as (_ & Ht & _).
    destruct Hraised as [Hid|Hc]; [|by rewrite Hsock in Hc].
    unfold get in Hid. by rewrite Ht in Hid.
  - intros e tr' i d t o id [Hsock HM] _ _. split; [done|]. intros HF.
    apply Forall_app in HF as [HF _].
    destruct (HM HF) as ((Hs & Hk & Hq) & _). split; [lia|done].
  - done.
  - intros e tr' d nextTask rest [Hsock HI] Hqueue _. split; [done|]. intros HF.
    apply Forall_app in HF as [HF _].
    destruct (HI HF) as (Hs & Hk & Hq). rewrite Hqueue in Hq.
    apply Forall_cons in Hq as [Hn Hq]. split; [done|]. split; [done|].
    apply Forall_app. split; [done|]. by apply Forall_singleton.
  - intros e tr' d nextTask rest [Hsock HI] Hqueue _. split; [done|]. intros HF.
    apply Forall_app in HF as [HF _].
    destruct (HI HF) as (Hs & Hk & Hq). rewrite Hqueue in Hq.
    apply Forall_cons in Hq as [Hn Hq].
    split; [|split; [done|split; [|lia]]].
    + split; [lia|]. split; [|done]. intros j s Hj.
      destruct (Hk j s Hj). split; [lia|done].
    + destruct (suspended e !! activations e) as [s|] eqn:Hi; [|done].
      destruct (Hk _ _ Hi). lia.
  - intros e tr' i s [Hsock HI] Hi. split; [done|]. intros HF.
    destruct (HI HF) as (Hs & Hk & Hq). destruct (Hk _ _ Hi) as [Hlt Ht].
    split; [|split; [done|split; [apply lookup_delete_eq|done]]].
    split; [|split; [|done]].
    + rewrite map_size_delete, Hi. simpl.
      assert (size (suspended e) <> 0%nat)
        by (apply map_size_ne_0_lookup_2 with (i := i); by rewrite Hi).
      lia.
    + intros j s'. destruct (decide (j = i)) as [->|Hne].
      * by rewrite lookup_delete_eq.
      * rewrite lookup_delete_ne by done. apply Hk.
  - intros e tr' i s o call k [Hsock HI] Hi _. split; [done|]. intros HF.
    destruct (HI HF) as (Hs & Hk & Hq). destruct (Hk _ _ Hi) as [Hlt Ht].
    split; [rewrite map_size_insert, Hi; simpl; lia|]. split; [|done].
    intros j s'. destruct (decide (j = i)) as [->|Hne].
    + rewrite lookup_insert_eq. by intros [= <-].
    + rewrite lookup_insert_ne by done. apply Hk.
Qed.

Lemma counted_run (now : nat -> string) (evs : list Event) : forall ex tr,
  reconnect ∉ evs ->
  in_step 0 ex tr -> in_step 0 (run now ex evs).1 (tr ++ (run now ex evs).2).
Proof.
  induction evs as [|ev evs IH]; intros ex tr Hno HI; simpl.
  - by rewrite app_nil_r.
  - rewrite app_assoc. apply IH; [intros Hin; apply Hno; by apply elem_of_cons; right|].
    destruct ev as [data|i o| | | |];
      try (by apply counted_job);
      try (exfalso; apply Hno; apply elem_of_cons; by left);
      destruct HI as [Hsock HI]; unfold connecting in Hsock; simpl;
      destruct (readyState ex) eqn:Hstate; simpl; rewrite app_nil_r; try done;
      by (split; [unfold connecting; simpl; try rewrite Hstate|]).
Qed.

(** X2. Until the socket is replaced, no slot is lost. From the moment
    the first socket has opened, and as long as no timer of [onclose]
    has fired (so that [this.socket] is never a socket that is still
    connecting) and every task handed over by [onmessage] is a value
    with properties, the counter is exactly the number of activations
    that wait for their handler: whatever the tasks ask for, however
    their handlers end, and whether the socket is open, closing or
    closed. *)
Theorem counter_counts_the_running (now : nat -> string) (cfg : TaskExecutorConfig)
    (evs : list Event) :
  let r := run now (new_TaskExecutor cfg) (onopen :: evs) in
  reconnect ∉ evs ->
  (forall t, Received t ∈ r.2 -> nullish t = false) ->
  activeTaskCount r.1 = Z.of_nat (size (suspended r.1)).
Proof.
  intros r Hno Hrec.
  assert (HF : Forall received_is_object r.2).
  { apply Forall_forall. intros l Hl. destruct l; simpl; try done. by apply Hrec. }
  assert (H0 : in_step 0 (step now (new_TaskExecutor cfg) onopen).1 []).
  { split; [done|]. intros _. unfold counted. simpl.
    split; [by rewrite map_size_empty|]. split; [|done].
    intros j s. by rewrite lookup_empty. }
  destruct (counted_run now evs _ [] Hno H0) as [_ Hc].
  destruct (Hc HF) as (Hs & _). subst r. simpl. simpl in Hs. lia.
Qed.

Lemma shut_run (now : nat -> string) (cfg : TaskExecutorConfig) (evs : list Event) :
  maxConcurrentTasks cfg <= 0 ->
  shut cfg (run now (new_TaskExecutor cfg) evs).1 (run now (new_TaskExecutor cfg) evs).2.
Proof.
  intros Hmax.
  apply (run_invariant now (shut cfg) (fun _ _ _ _ _ => False) (fun _ _ _ => False));
    unfold shut, full; simpl; try done.
  - intros ex tr e (Hc & Ha & Hs & Hsent & Hq & Hst).
    unfold received_tasks, started_tasks in *. rewrite !omap_app. simpl.
    rewrite !app_nil_r. done.
  - intros ex tr t (Hc & Ha & Hs & Hsent & Hq & Hst) _.
    unfold received_tasks, started_tasks in *. rewrite !omap_app. simpl.
    rewrite app_nil_r, Hq. done.
  - intros ex tr t (Hc & Ha & Hs & Hsent & Hq & Hst) Hfree. rewrite Hc in Hfree. lia.
  - intros ex tr i s (Hc & Ha & Hs & Hsent & Hq & Hst) Hi.
    by rewrite Hs, lookup_empty in Hi.
  - intros ex tr i s o call k (Hc & Ha & Hs & Hsent & Hq & Hst) Hi.
    by rewrite Hs, lookup_empty in Hi.
Qed.

(** X3. A bound of zero or less admits nothing: the executor starts
    no task and sends no message, and every task it receives stays in
    the queue, in the order of arrival. *)
Theorem nothing_runs_without_slots (now : nat -> string) (cfg : TaskExecutorConfig)
    (evs : list Event) :
  maxConcurrentTasks cfg <= 0 ->
  let r := run now (new_TaskExecutor cfg) evs in
  started_tasks r.2 = [] /\ sent r.1 = [] /\ suspended r.1 = ∅ /\
  taskQueue r.1 = received_tasks r.2.
Proof.
  intros Hmax r. by destruct (shut_run now cfg evs Hmax) as (_ & _ & Hs & Hsent & Hq & Hst).
Qed.

(** X4. A socket message whose payload is not JSON, or is JSON without
    [message_type] ["task_request"], leaves the executor as it was:
    the counter, the queue, the waiting activations and the messages
    sent; at most an exception escapes the handler. *)
Theorem other_messages_change_nothing (now : nat -> string) (ex : TaskExecutor)
    (data : WireData) :
  is_task_request data = false ->
  (step now ex (onmessage data)).1 = ex /\
  Forall is_escape (step now ex (onmessage data)).2.
Proof.
  destruct data as [text|message]; simpl; intros H.
  - split; [done|]. by apply Forall_singleton.
  - unfold socket_onmessage, get. simpl.
    destruct (nullish message); simpl; [split; [done|by apply Forall_singleton]|].
    rewrite H. by split.
Qed.

(** ** What a message says *)

Lemma reports_more now tr tr' k i m :
  reports now tr k i m -> reports now (tr ++ tr') k i m.
Proof.
  intros (d & n & t & o & Hs & Ho & ->). exists d, n, t, o.
  repeat split; try done; apply elem_of_app; by left.
Qed.

Lemma all_reported_more now ex tr tr' :
  (forall i m, Sent i m ∉ tr') ->
  all_reported now ex tr -> all_reported now ex (tr ++ tr').
Proof.
  intros Hno (Ha & Hb & Hc). split; [|split].
  - intros i m [Hin|Hin]%elem_of_app; [|by destruct (Hno i m)].
    destruct (Ha i m Hin) as (k & Hk & Hr). exists k. split; [done|].
    by apply reports_more.
  - intros k m Hk. destruct (Hb k m Hk) as (i & Hr). exists i. by apply reports_more.
  - intros i s Hi. destruct (Hc i s Hi) as [n Hn]. exists n. apply elem_of_app. by left.
Qed.

Local Ltac no_sent :=
  let i := fresh in let m := fresh in let H := fresh in
  intros i m H; members H.

Lemma result_message_eq now ex id o :
  result_message now ex id o =
  JSON_stringify (task_result id (outcome_status o) (outcome_result o) (outcome_error o)
                    (now (length (sent ex)))).
Proof. by destruct o. Qed.

Lemma all_reported_run (now : nat -> string) (cfg : TaskExecutorConfig) (evs : list Event) :
  all_reported now (run now (new_TaskExecutor cfg) evs).1
    (run now (new_TaskExecutor cfg) evs).2.
Proof.
  apply (run_invariant now (all_reported now)
           (fun i d t ex tr => all_reported now ex tr /\ exists n, Started i d n t ∈ tr)
           (fun _ => all_reported now)); simpl.
  - intros ex tr e HI. apply all_reported_more; [no_sent|done].
  - intros ex tr t HI _. apply (all_reported_more now ex); [no_sent|done].
  - intros ex tr t HI _. split.
    + apply (all_reported_more now ex); [no_sent|done].
    + eexists. apply elem_of_app. right. apply elem_of_cons. right.
      apply elem_of_cons. by left.
  - intros ex tr i d t call k [(Ha & Hb & Hc) Hn] _. split; [done|split; [done|]].
    simpl. intros j s. destruct (decide (j = i)) as [->|Hne].
    + rewrite lookup_insert_eq. by intros [= <-].
    + rewrite lookup_insert_ne by done. apply Hc.
  - intros ex tr i d t o e [HI _] _. apply all_reported_more; [no_sent|done].
  - intros ex tr i d t o id [(Ha & Hb & Hc) [n Hn]] Hid _.
    destruct (get_Normal _ _ _ Hid) as [_ ->].
    assert (Hr : reports now (tr ++ [Settled i o;
                                      Sent i (result_message now ex (member t "id") o);
                                      Finished i])
                   (length (sent ex)) i (result_message now ex (member t "id") o)).
    { exists d, n, t, o. split; [apply elem_of_app; by left|].
      split; [apply elem_of_app; right; apply elem_of_cons; by left|].
      apply result_message_eq. }
    split; [|split]; simpl.
    + intros j m [Hin|Hin]%elem_of_app.
      * destruct (Ha j m Hin) as (k & Hk & Hrk). exists k.
        split; [by apply lookup_app_l_Some|by apply reports_more].
      * members Hin. exists (length (sent ex)).
        split; [|done]. rewrite lookup_app_r by done.
        by replace (length (sent ex) - length (sent ex))%nat with 0%nat by lia.
    + intros k m Hk. apply lookup_app_Some in Hk as [Hk|[Hlen Hk]].
      * destruct (Hb k m Hk) as (j & Hj). exists j. by apply reports_more.
      * destruct (k - length (sent ex))%nat as [|k'] eqn:Hk'; [|done].
        injection Hk as <-. exists i.
        by replace k with (length (sent ex)) by lia.
    + intros j s Hj. destruct (Hc j s Hj) as [n' Hn']. exists n'.
      apply elem_of_app. by left.
  - done.
  - intros ex tr d nextTask rest HI _ _. apply (all_reported_more now ex); [no_sent|done].
  - intros ex tr d nextTask rest HI _ _. split.
    + apply (all_reported_more now ex); [no_sent|done].
    + eexists. apply elem_of_app. right. apply elem_of_cons. right.
      apply elem_of_cons. by left.
  - intros ex tr i s (Ha & Hb & Hc) Hi. split; [|by apply Hc].
    split; [done|split; [done|]]. simpl. intros j s'.
    destruct (decide (j = i)) as [->|Hne].
    + by rewrite lookup_delete_eq.
    + rewrite lookup_delete_ne by done. apply Hc.
  - intros ex tr i s o call k (Ha & Hb & Hc) Hi _. split; [done|split; [done|]].
    simpl. intros j s'. destruct (decide (j = i)) as [->|Hne].
    + rewrite lookup_insert_eq. intros [= <-]. simpl. by apply (Hc i s).
    + rewrite lookup_insert_ne by done. apply Hc.
  - done.
  - split; [intros i m H; by apply elem_of_nil in H|].
    split; [intros k m H; done|]. intros i s H. simpl in H. by rewrite lookup_empty in H.
Qed.

Lemma started_once (now : nat -> string) cfg evs i d n t d' n' t' :
  let tr := (run now (new_TaskExecutor cfg) evs).2 in
  Started i d n t ∈ tr -> Started i d' n' t' ∈ tr -> (d, n, t) = (d', n', t').
Proof.
  intros tr H1 H2.
  assert (Hh1 : Started i d n t ∈ history i tr)
    by (apply elem_of_history; split; [done|apply Nat.eqb_refl]).
  assert (Hh2 : Started i d' n' t' ∈ history i tr)
    by (apply elem_of_history; split; [done|apply Nat.eqb_refl]).
  pose proof (all_tracked_run now cfg evs i) as Hi. fold tr in Hi.
  unfold tracked in Hi. destruct (suspended _ !! i) as [s|].
  - destruct Hi as [_ [n0 Hh]]. rewrite Hh in Hh1, Hh2. members Hh1. by members Hh2.
  - destruct (decide (i < _)%nat); [|rewrite Hi in Hh1; by members Hh1].
    destruct Hi as (d0 & n0 & t0 & o0 & [Hh|(id & m & _ & _ & Hh)]);
      rewrite Hh in Hh1, Hh2; members Hh1; by members Hh2.
Qed.

Lemma content_of_task_result id status result error ts :
  result <> JUndefined -> error <> JUndefined ->
  forall m, m = JSON_stringify (task_result id status result error ts) ->
  content_field m "task_id" = JSON_stringify id /\
  status_of m = JStr status /\
  content_field m "result" = JSON_stringify result /\
  content_field m "error" = JSON_stringify error /\
  content_field m "timestamp" = JStr ts.
Proof. intros Hr He m ->. by destruct id, result, error. Qed.

(** X5. Every message the executor sends answers one task: it carries,
    as [task_id], the [id] of the task its activation was started for
    (no [task_id] when the task has no [id]), and the outcome of that
    task's handler: status ["completed"] with the value the handler
    resolved to ([null] for [undefined]) and no error, or status
    ["failed"] with the message of the error it threw and no result. *)
Theorem message_answers_its_task (now : nat -> string) (cfg : TaskExecutorConfig)
    (evs : list Event) (i : nat) (m : JSValue) :
  let tr := (run now (new_TaskExecutor cfg) evs).2 in
  Sent i m ∈ tr ->
  exists d n t o,
    Started i d n t ∈ tr /\ Settled i o ∈ tr /\
    (forall d' n' t', Started i d' n' t' ∈ tr -> t' = t) /\
    content_field m "task_id" = JSON_stringify (member t "id") /\
    status_of m = JStr (outcome_status o) /\
    content_field m "result" = JSON_stringify (outcome_result o) /\
    content_field m "error" = outcome_error o.
Proof.
  intros tr Hm.
  destruct (all_reported_run now cfg evs) as (Ha & _). fold tr in Ha.
  destruct (Ha i m Hm) as (k & _ & d & n & t & o & Hs & Ho & ->).
  exists d, n, t, o. split; [done|]. split; [done|]. split.
  { intros d' n' t' Hs'.
    by injection (started_once now cfg evs i d n t d' n' t' Hs Hs') as _ _ ->. }
  destruct (content_of_task_result (member t "id") (outcome_status o) (outcome_result o)
              (outcome_error o) (now k)) with (m := JSON_stringify
                (task_result (member t "id") (outcome_status o) (outcome_result o)
                   (outcome_error o) (now k))) as (H1 & H2 & H3 & H4 & _); [| |done|].
  { destruct o as [v|e]; simpl; [by destruct v|done]. }
  { by destruct o. }
  rewrite H1, H2, H3, H4. repeat split. by destruct o.
Qed.

(** ** Handlers that wait for the browser *)

Lemma step_settle_await (now : nat -> string) ex i s o call k :
  suspended ex !! i = Some s ->
  s_resume s o = Await call k ->
  step now ex (settle i o) =
  (set_suspended (<[i := mkSuspended (s_task s) (s_depth s) call k]> (suspended ex)) ex, []).
Proof. intros Hs Hk. simpl. unfold resume. by rewrite Hs, Hk. Qed.

Lemma results_of_app (i : nat) (tr1 tr2 : list Label) :
  results_of i (tr1 ++ tr2) = (results_of i tr1 ++ results_of i tr2)%list.
Proof. unfold results_of. by rewrite history_app, omap_app. Qed.

Lemma settle_final_history (now : nat -> string) ex i s o outcome :
  suspended ex !! i = Some s ->
  final (s_resume s o) = Some outcome ->
  nullish (s_task s) = false ->
  connecting ex = false ->
  (i < activations ex)%nat ->
  history i (step now ex (settle i o)).2 =
  [Settled i outcome; Sent i (result_message now ex (member (s_task s) "id") outcome);
   Finished i].
Proof.
  intros Hs Hf Hobj Hsock Hi.
  set (m := result_message now ex (member (s_task s) "id") outcome).
  assert (Heq : step now ex (settle i o) =
                after [Settled i outcome; Sent i m; Finished i]
                  (drainQueue now (s_depth s) (after_finish i m ex)))
    by (by rewrite (step_settle_final now ex i s o outcome Hs Hf Hobj Hsock)).
  rewrite Heq, after_snd, history_app, drainQueue_history by done.
  simpl. by rewrite !Nat.eqb_refl.
Qed.

Lemma settle_final_results (now : nat -> string) ex i s o outcome :
  suspended ex !! i = Some s ->
  final (s_resume s o) = Some outcome ->
  nullish (s_task s) = false ->
  connecting ex = false ->
  (i < activations ex)%nat ->
  results_of i (step now ex (settle i o)).2 =
  [result_message now ex (member (s_task s) "id") outcome].
Proof.
  intros Hs Hf Hobj Hsock Hi. unfold results_of.
  by rewrite (settle_final_history now ex i s o outcome Hs Hf Hobj Hsock Hi).
Qed.

(** X6. A task whose handler settles is answered, once. Take any run,
    and in the executor it leads to any activation that waits for its
    handler.  So far the activation has sent nothing.  When its
    handler settles, resolved or thrown, while the socket is not still
    connecting, the job sends the one message of the task, with the
    status of the outcome; the socket has taken it; and whatever comes
    next, that message stays the only one of the activation. *)
Theorem settled_task_is_answered_once (now : nat -> string) (cfg : TaskExecutorConfig)
    (evs : list Event) (i : nat) (s : Suspended) (o outcome : Outcome)
    (later : list Event) :
  let r := run now (new_TaskExecutor cfg) evs in
  suspended r.1 !! i = Some s ->
  final (s_resume s o) = Some outcome ->
  readyState r.1 <> CONNECTING ->
  let m := result_message now r.1 (member (s_task s) "id") outcome in
  let r' := run now (new_TaskExecutor cfg) (evs ++ settle i o :: later) in
  results_of i r.2 = [] /\
  results_of i (step now r.1 (settle i o)).2 = [m] /\
  status_of m = JStr (outcome_status outcome) /\
  results_of i r'.2 = [m] /\
  m ∈ sent r'.1.
Proof.
  intros r Hs Hf Hsock%connecting_false m r'.
  pose proof (waiting_task_is_object now cfg evs i s Hs) as Hobj.
  pose proof (all_tracked_run now cfg evs i) as Hi. fold r in Hi.
  unfold tracked in Hi. rewrite Hs in Hi. destruct Hi as [Hlt [n Hh]].
  pose proof (settle_final_history now r.1 i s o outcome Hs Hf Hobj Hsock Hlt) as Hjob.
  fold m in Hjob.
  assert (Hnone : results_of i r.2 = []) by (unfold results_of; by rewrite Hh).
  assert (Hone : results_of i (step now r.1 (settle i o)).2 = [m])
    by (unfold results_of; by rewrite Hjob).
  assert (Hall : results_of i r'.2 = [m]).
  { subst r'. replace (evs ++ settle i o :: later)%list
      with ((evs ++ [settle i o]) ++ later)%list by (by rewrite <- app_assoc).
    rewrite run_app, after_snd, results_of_app.
    pose proof (all_tracked_run now cfg (evs ++ [settle i o]) i) as Hi'.
    assert (Hh' : history i (run now (new_TaskExecutor cfg) (evs ++ [settle i o])).2 =
                  [Started i (s_depth s) n (s_task s); Settled i outcome; Sent i m;
                   Finished i]).
    { rewrite run_snoc, after_snd, history_app. fold r. by rewrite Hh, Hjob. }
    set (ex' := (run now (new_TaskExecutor cfg) (evs ++ [settle i o])).1) in *.
    unfold tracked in Hi'. rewrite Hh' in Hi'.
    destruct (suspended ex' !! i) as [s'|] eqn:Hs'.
    { destruct Hi' as [_ [n' Hn']]. discriminate Hn'. }
    destruct (decide (i < activations ex')%nat) as [Hlt'|]; [|done].
    unfold results_of at 1. rewrite Hh'. simpl.
    unfold results_of. by rewrite (history_closed now i later _ Hlt' Hs'). }
  split; [done|]. split; [done|]. split; [apply status_of_result_message|].
  split; [done|].
  destruct (all_reported_run now cfg (evs ++ settle i o :: later)) as (Ha & _).
  fold r' in Ha.
  assert (Hin : Sent i m ∈ r'.2).
  { assert (Hm : m ∈ results_of i r'.2) by (rewrite Hall; apply elem_of_cons; by left).
    unfold results_of in Hm. apply list_elem_of_omap in Hm as (l & Hl & Hsm).
    apply elem_of_history in Hl as [Hl Habout].
    destruct l; simpl in Hsm; try done. injection Hsm as ->.
    simpl in Habout. by apply Nat.eqb_eq in Habout as ->. }
  destruct (Ha i m Hin) as (k & Hk & _). by apply list_elem_of_lookup_2 in Hk.
Qed.

(** The executor right after it started a task whose handler awaits
    the browser. *)
Lemma handleTaskRequest_waits (now : nat -> string) depth ex task call k :
  activeTaskCount ex < maxConcurrentTasks (config ex) ->
  executeTask task = Await call k ->
  (handleTaskRequest now depth ex task).1 =
  set_suspended (<[activations ex := mkSuspended task depth call k]> (suspended ex))
    (begin_activation ex).
Proof.
  intros Hfree Hx. rewrite handleTaskRequest_free by (unfold full; lia).
  by rewrite Hx.
Qed.



(** X10. What the page answers is what the task reports, while the
    socket is not still connecting. Once the browser has found a tab
    with an [id], a task that runs in the page waits for
    [tabs.sendMessage] to that tab with its function and arguments;
    when the page answers [v] the one message of the task is
    ["completed"] with result [v] ([null] for [undefined]) and a
    [null] error; when the call is rejected it is ["failed"] with the
    message of the rejection. *)
Theorem page_answer_is_the_result (now : nat -> string) (depth : nat) (ex : TaskExecutor)
    (task : JSValue) (func : PageFunction) (args : list JSValue) (tab : JSValue)
    (rest : list JSValue) :
  activeTaskCount ex < maxConcurrentTasks (config ex) ->
  readyState ex <> CONNECTING ->
  executeTask task = executeInPage func args ->
  ToBoolean (member tab "id") = true ->
  let i := activations ex in
  let ex1 := (handleTaskRequest now depth ex task).1 in
  let ex2 := (step now ex1 (settle i (Resolved (JArr (tab :: rest))))).1 in
  let stamp := now (length (sent ex)) in
  (exists s, suspended ex2 !! i = Some s /\
             s_call s = tabs_sendMessage (member tab "id") func args) /\
  sent ex2 = sent ex /\
  (forall v,
      results_of i (step now ex2 (settle i (Resolved v))).2 =
      [JSON_stringify
         (task_result (member task "id") "completed" (default_null v) JNull stamp)]) /\
  (forall e,
      results_of i (step now ex2 (settle i (Rejected e))).2 =
      [JSON_stringify
         (task_result (member task "id") "failed" JNull (JStr (error_message e)) stamp)]).
Proof.
  intros Hfree Hsock%connecting_false Hx Hid i ex1 ex2 stamp.
  pose proof (executeTask_object _ _ _ Hx) as Hobj.
  assert (Htab : nullish tab = false) by (by destruct tab).
  assert (Hex1 : ex1 = set_suspended
                         (<[i := mkSuspended task depth _ _]> (suspended ex))
                         (begin_activation ex))
    by (apply handleTaskRequest_waits; [done|exact Hx]).
  assert (Hs : suspended ex1 !! i = Some (mkSuspended task depth _ _))
    by (rewrite Hex1; simpl; apply lookup_insert_eq).
  assert (Hex2 : ex2 = set_suspended
                         (<[i := mkSuspended task depth
                                   (tabs_sendMessage (member tab "id") func args) 
                                   (fun o => match o with Resolved v => Return v | Rejected e => Throw e end)]>
                            (suspended ex1)) ex1).
  { subst ex2. erewrite (step_settle_await now ex1 i _ _ _ _ Hs); [done|].
    simpl. unfold get. rewrite Htab. simpl. by rewrite Hid. }
  assert (Hs2 : suspended ex2 !! i = Some (mkSuspended task depth _ _))
    by (rewrite Hex2; simpl; apply lookup_insert_eq).
  assert (Hi : (i < activations ex2)%nat) by (rewrite Hex2, Hex1; simpl; lia).
  assert (Hsent : sent ex2 = sent ex) by (by rewrite Hex2, Hex1).
  assert (Hsock2 : connecting ex2 = false) by (by rewrite Hex2, Hex1).
  split; [eexists; split; [exact Hs2|done]|]. split; [done|]. split.
  - intros v.
    rewrite (settle_final_results now ex2 i _ _ (Resolved v) Hs2) by done.
    unfold result_message. simpl. by rewrite Hsent.
  - intros e.
    rewrite (settle_final_results now ex2 i _ _ (Rejected e) Hs2) by done.
    unfold result_message. simpl. by rewrite Hsent.
Qed.

(** X11. A network task is not checked before it is sent: whatever its
    parameters hold, the executor calls [fetch] with their [url],
    [method], [headers] and the JSON text of their [body].  While the
    socket is not still connecting, the outcome is reported: when
    [fetch] is rejected the task is reported ["failed"] with the
    message of the rejection and a [null] result; when it resolves,
    the task waits for [response.json()] and reports what that gives:
    ["completed"] with the value, or ["failed"] when the body is not
    JSON. *)
Theorem network_task_outcome (now : nat -> string) (depth : nat) (ex : TaskExecutor)
    (task parameters : JSValue) :
  activeTaskCount ex < maxConcurrentTasks (config ex) ->
  readyState ex <> CONNECTING ->
  is_string (member task "type") "NETWORK_INTERCEPT" = true ->
  get task "parameters" = Normal parameters ->
  nullish parameters = false ->
  let i := activations ex in
  let ex1 := (handleTaskRequest now depth ex task).1 in
  let stamp := now (length (sent ex)) in
  let failed e :=
    JSON_stringify
      (task_result (member task "id") "failed" JNull (JStr (error_message e)) stamp) in
  (exists s, suspended ex1 !! i = Some s /\
             s_call s = fetch (member parameters "url") (member parameters "method")
                          (member parameters "headers")
                          (JSON_stringify (member parameters "body"))) /\
  (forall e, results_of i (step now ex1 (settle i (Rejected e))).2 = [failed e]) /\
  (forall response,
      let ex2 := (step now ex1 (settle i (Resolved response))).1 in
      (exists s, suspended ex2 !! i = Some s /\ s_call s = response_json response) /\
      (forall v,
          results_of i (step now ex2 (settle i (Resolved v))).2 =
          [JSON_stringify
             (task_result (member task "id") "completed" (default_null v) JNull stamp)]) /\
      (forall e, results_of i (step now ex2 (settle i (Rejected e))).2 = [failed e])).
Proof.
  intros Hfree Hsock%connecting_false Htype Hp Hpar i ex1 stamp failed.
  destruct (get_Normal _ _ _ Hp) as [Hobj ->].
  assert (Hx : executeTask task = executeNetworkTask task).
  { unfold executeTask, get. rewrite Hobj. simpl.
    by rewrite (is_string_true _ _ Htype). }
  assert (Hn : executeNetworkTask task =
               Await (fetch (member (member task "parameters") "url")
                        (member (member task "parameters") "method")
                        (member (member task "parameters") "headers")
                        (JSON_stringify (member (member task "parameters") "body")))
                 (fun o => match o with
                           | Rejected e => Throw e
                           | Resolved response => returnAwait (response_json response)
                           end)).
  { unfold executeNetworkTask, get, destructure. rewrite Hobj. simpl. by rewrite Hpar. }
  rewrite Hn in Hx.
  assert (Hex1 : ex1 = set_suspended
                         (<[i := mkSuspended task depth _ _]> (suspended ex))
                         (begin_activation ex))
    by (apply handleTaskRequest_waits; [done|exact Hx]).
  assert (Hs : suspended ex1 !! i = Some (mkSuspended task depth _ _))
    by (rewrite Hex1; simpl; apply lookup_insert_eq).
  assert (Hi : (i < activations ex1)%nat) by (rewrite Hex1; simpl; lia).
  assert (Hsent : sent ex1 = sent ex) by (by rewrite Hex1).
  assert (Hsock1 : connecting ex1 = false) by (by rewrite Hex1).
  split; [eexists; split; [exact Hs|done]|]. split.
  - intros e. rewrite (settle_final_results now ex1 i _ _ (Rejected e) Hs) by done.
    unfold result_message, failed. simpl. by rewrite Hsent.
  - intros response ex2.
    assert (Hex2 : ex2 = set_suspended
                           (<[i := mkSuspended task depth (response_json response)
                                     (fun o => match o with Resolved v => Return v | Rejected e => Throw e end)]>
                              (suspended ex1)) ex1).
    { subst ex2. by erewrite (step_settle_await now ex1 i _ _ _ _ Hs). }
    assert (Hs2 : suspended ex2 !! i = Some (mkSuspended task depth _ _))
      by (rewrite Hex2; simpl; apply lookup_insert_eq).
    assert (Hi2 : (i < activations ex2)%nat) by (by rewrite Hex2).
    assert (Hsent2 : sent ex2 = sent ex) by (by rewrite Hex2).
    assert (Hsock2 : connecting ex2 = false) by (by rewrite Hex2).
    split; [eexists; split; [exact Hs2|done]|]. split.
    + intros v. rewrite (settle_final_results now ex2 i _ _ (Resolved v) Hs2) by done.
      unfold result_message. simpl. by rewrite Hsent2.
    + intros e. rewrite (settle_final_results now ex2 i _ _ (Rejected e) Hs2) by done.
      unfold result_message, failed. simpl. by rewrite Hsent2.
Qed.

(** ** Tasks that fail at once *)

Lemma executeTask_missing_parameters task :
  nullish task = false ->
  known_type (member task "type") = true ->
  nullish (member task "parameters") = true ->
  exists e, error_name e = "TypeError" /\ executeTask task = Throw e.
Proof.
  intros Hobj Hknown Hpar. unfold executeTask, get. rewrite Hobj. simpl.
  unfold known_type in Hknown.
  unfold executeDOMTask, executeNetworkTask, executeUITask, executeDataExtractionTask,
    get, destructure.
  rewrite Hobj. simpl. rewrite Hpar. simpl.
  repeat match goal with
         | |- context [if ?b then _ else _] =>
             destruct b; [eexists; split; [|reflexivity]; reflexivity|]
         end.
  done.
Qed.

(** X8. A task of a known type whose [parameters] are missing or
    [null] fails at once, for each of the four types: the handler
    raises a [TypeError] before it calls the browser, the executor
    sends one ["failed"] message, no activation is left waiting, and
    the counter is back to what it was.  The socket is not still
    connecting, as it is when [handleTaskRequest] is called: a message
    has just arrived, or the socket has just taken the answer to
    another task. *)
Theorem missing_parameters_fail_at_once (now : nat -> string) (depth : nat)
    (ex : TaskExecutor) (task : JSValue) :
  activeTaskCount ex < maxConcurrentTasks (config ex) ->
  readyState ex <> CONNECTING ->
  nullish task = false ->
  known_type (member task "type") = true ->
  nullish (member task "parameters") = true ->
  let i := activations ex in
  exists e m,
    error_name e = "TypeError" /\
    m = result_message now ex (member task "id") (Rejected e) /\
    status_of m = JStr "failed" /\
    results_of i (handleTaskRequest now depth ex task).2 = [m] /\
    handleTaskRequest now depth ex task =
      after [Started i depth (activeTaskCount ex + 1) task; Settled i (Rejected e);
             Sent i m; Finished i]
        (drainQueue now depth (after_report m ex)) /\
    suspended (after_report m ex) = suspended ex /\
    activeTaskCount (after_report m ex) = activeTaskCount ex.
Proof.
  intros Hfree Hsock%connecting_false Hobj Hknown Hpar i.
  destruct (executeTask_missing_parameters task Hobj Hknown Hpar) as (e & He & Hx).
  assert (Hnf : ~ full ex) by (unfold full; lia).
  destruct (handleTaskRequest_throws now depth ex task e Hnf Hx Hobj Hsock) as [Heq Hres].
  exists e, (result_message now ex (member task "id") (Rejected e)).
  split; [done|]. split; [done|]. split; [apply status_of_result_message|].
  by repeat split.
Qed.


(** ** The task creator of the dashboard *)

Lemma onSubmit_content (date_now : Z) (data : TaskForm) :
  exists content,
    JSON_stringify (onSubmit date_now data) =
      JObj [("sender", JStr "interface"); ("message_type", JStr "task_request");
            ("content", content)] /\
    nullish content = false /\
    member content "task_id" = JStr ("task-" ++ pretty date_now) /\
    member content "id" = JUndefined /\
    member content "type" = JUndefined.
Proof.
  destruct data as [type priority [timeout|] retry retries parameters [deps|]];
    eexists; (split; [reflexivity|]); done.
Qed.

(** X12. The executor does not understand the requests of the
    dashboard. The task creator writes the kind of task under
    [taskType] and its identifier under [task_id], while the executor
    reads [type] and [id]: a request of the task creator that reaches
    the executor as it was sent (on a socket that is therefore not
    still connecting) is taken for a task request, is started, fails
    before any handler is chosen, and is answered
    ["failed"] with ["Unknown task type: undefined"] in a message
    without [task_id]. *)
Theorem task_creator_request_is_not_understood (now : nat -> string) (ex : TaskExecutor)
    (date_now : Z) (data : TaskForm) (request : WireData) :
  activeTaskCount ex < maxConcurrentTasks (config ex) ->
  readyState ex <> CONNECTING ->
  sendMessage true (onSubmit date_now data) = Some request ->
  let i := activations ex in
  let r := step now ex (onmessage request) in
  is_task_request request = true /\
  exists content m,
    member content "task_id" = JStr ("task-" ++ pretty date_now) /\
    r = after [Received content; Started i 0 (activeTaskCount ex + 1) content;
               Settled i (Rejected (Error "Unknown task type: undefined"));
               Sent i m; Finished i]
          (drainQueue now 0 (after_report m ex)) /\
    results_of i r.2 = [m] /\
    status_of m = JStr "failed" /\
    content_field m "error" = JStr "Unknown task type: undefined" /\
    content_field m "task_id" = JUndefined.
Proof.
  intros Hfree Hsock%connecting_false Hsend.
  assert (Hreq : request = JSONText (JSON_stringify (onSubmit date_now data)))
    by (unfold sendMessage in Hsend; congruence).
  clear Hsend. subst request. intros i r.
  destruct (onSubmit_content date_now data) as (content & Heq & Hobj & Htid & Hid & Htype).
  split; [unfold is_task_request; by rewrite Heq|].
  assert (Hx : executeTask content = Throw (Error "Unknown task type: undefined")).
  { apply (executeTask_unknown_type content JUndefined); [|done|done].
    unfold get. by rewrite Hobj, Htype. }
  assert (Hnf : ~ full ex) by (unfold full; lia).
  destruct (handleTaskRequest_throws now 0 ex content _ Hnf Hx Hobj Hsock) as [Hh Hres].
  assert (Hr : r = after [Received content] (handleTaskRequest now 0 ex content)).
  { subst r. unfold step, socket_onmessage, JSON_parse. by rewrite Heq. }
  set (m := result_message now ex (member content "id")
              (Rejected (Error "Unknown task type: undefined"))) in *.
  exists content, m.
  destruct (content_of_result_message now ex (member content "id")
              (Rejected (Error "Unknown task type: undefined"))) as (Hst & Herr & _).
  fold m in Hst, Herr.
  split; [done|]. split; [by rewrite Hr, Hh, after_after|].
  split; [|split; [done|split; [done|]]].
  - rewrite Hr. unfold results_of in *. by rewrite after_snd, history_app.
  - subst m. rewrite Hid. reflexivity.
Qed.

(** * The content script *)

Lemma notify_sent count message page :
  page_sent (notify count message page) =
  (page_sent page ++
   if page_connecting page then [] else replicate count (JSON_stringify message))%list /\
  backgroundColor (notify count message page) = backgroundColor page /\
  timers (notify count message page) = timers page /\
  observers (notify count message page) = observers page /\
  page_socket (notify count message page) = page_socket page.
Proof.
  revert page. induction count as [|n IH]; intros page; simpl.
  - destruct (page_connecting page); by rewrite app_nil_r.
  - unfold page_send. destruct (page_connecting page) eqn:Hc; simpl.
    + destruct (IH page) as (-> & -> & -> & -> & ->). by rewrite Hc.
    + destruct (IH (page_took message page)) as (-> & -> & -> & -> & ->).
      change (page_connecting (page_took message page)) with (page_connecting page).
      rewrite Hc. simpl. by rewrite <- app_assoc.
Qed.

Lemma handleBrowserCommand_sent doc page content page' :
  handleBrowserCommand doc page content = Normal page' ->
  page_sent page' = page_sent page \/
  exists text,
    page_sent page' =
    (page_sent page ++
     [JSON_stringify
        (from_extension "browser_response"
           (JObj [("command", JStr "EXTRACT_TEXT"); ("text", text)]))])%list.
Proof.
  unfold handleBrowserCommand, page_send.
  destruct (get content "command") as [command|e]; [|done].
  simpl.
  repeat match goal with
         | |- context [if ?b then _ else _] => destruct b
         | |- context [querySelector ?d ?s] => destruct (querySelector d s) as [[el|]|]
         end; simpl; try done; intros [= <-]; (by left) || (right; by eexists) || done.
Qed.

Lemma handleInterfaceAction_sent doc page content page' :
  handleInterfaceAction doc page content = Normal page' ->
  page_sent page' = page_sent page.
Proof.
  unfold handleInterfaceAction. destruct (get content "command") as [command|e]; [|done].
  simpl.
  repeat match goal with
         | |- context [if ?b then _ else _] => destruct b
         end; by intros [= <-].
Qed.

Local Ltac envelope :=
  unfold from_browser_extension; simpl; repeat split; try done; by eexists.

Lemma page_step_envelope doc page ev :
  Forall from_browser_extension (page_sent page) ->
  Forall from_browser_extension (page_sent (page_step doc page ev)).
Proof.
  intros HF. destruct ev as [|data| |changes| | |]; simpl.
  - destruct (page_socket page); simpl; try done.
    apply Forall_app. split; [done|]. apply Forall_singleton. envelope.
  - destruct (JSON_parse data) as [message|e]; simpl; [|done].
    unfold handleWebSocketMessage.
    destruct (get message "message_type") as [mt|e]; simpl; [|done].
    destruct (is_string mt "browser_command").
    + destruct (handleBrowserCommand doc page (member message "content")) as [page'|e]
        eqn:Hh; simpl; [|done].
      destruct (handleBrowserCommand_sent _ _ _ _ Hh) as [->|[text ->]]; [done|].
      apply Forall_app. split; [done|]. apply Forall_singleton.
      destruct text; envelope.
    + destruct (is_string mt "interface_action"); [|done].
      destruct (handleInterfaceAction doc page (member message "content")) as [page'|e]
        eqn:Hh; simpl; [|done].
      by rewrite (handleInterfaceAction_sent _ _ _ _ Hh).
  - by destruct (timers page) as [|[el colour] rest].
  - destruct (notify_sent (observers page) (dom_change doc changes) page) as (-> & _).
    apply Forall_app. split; [done|].
    destruct (page_connecting page); [done|]. apply Forall_replicate. envelope.
  - by destruct (page_socket page).
  - by destruct (page_socket page).
  - by destruct (page_reconnects page).
Qed.

(** X13. Every message the content script hands to the socket has the
    envelope of the protocol: [sender] is ["browser-extension"],
    [message_type] is a text and [content] is an object; whatever
    arrives, whatever timers fire and whatever the page does. *)
Theorem content_script_messages_have_the_envelope (doc : Document)
    (colours : gmap nat string) (evs : list PageEvent) (m : JSValue) :
  m ∈ page_sent (page_run doc (new_page colours) evs) ->
  from_browser_extension m.
Proof.
  assert (H : forall page, Forall from_browser_extension (page_sent page) ->
                           Forall from_browser_extension (page_sent (page_run doc page evs))).
  { induction evs as [|ev evs IH]; intros page HF; simpl; [done|].
    apply IH. by apply page_step_envelope. }
  intros Hm. specialize (H (new_page colours) (Forall_nil_2 _)).
  rewrite Forall_forall in H. by apply H.
Qed.

Lemma highlight_step doc page selector el :
  querySelector doc selector = Normal (Some el) ->
  page_step doc page (highlight_command selector) = highlight el page.
Proof. intros H. simpl. unfold handleWebSocketMessage, handleBrowserCommand. simpl. by rewrite H. Qed.

(** X14. A highlight is undone. On a page where no timer waits, the
    command [HIGHLIGHT_ELEMENT] turns the element it finds yellow, and
    when its timer fires every element has the background colour it
    had before and no timer is left. *)
Theorem highlight_is_undone (doc : Document) (page : Page) (selector : JSValue) (el : nat) :
  timers page = [] ->
  querySelector doc selector = Normal (Some el) ->
  let lit := page_step doc page (highlight_command selector) in
  let back := page_step doc lit timer_fires in
  background lit el = "yellow" /\
  (forall element, background back element = background page element) /\
  timers back = [].
Proof.
  intros Ht Hq lit back. subst back lit. rewrite (highlight_step _ _ _ _ Hq).
  unfold highlight, background. simpl. rewrite Ht. simpl.
  split; [by rewrite lookup_insert_eq|]. split; [|done].
  intros element. destruct (decide (element = el)) as [->|Hne].
  - by rewrite lookup_insert_eq.
  - by rewrite !lookup_insert_ne.
Qed.

(** X15. Two highlights of one element leave it yellow for good. When
    the element is highlighted again before the first timer has fired,
    the second command takes yellow for the colour to restore: once
    both timers have fired the element is yellow, whatever its colour
    was, and no timer is left to change it. *)
Theorem highlight_twice_stays_yellow (doc : Document) (page : Page)
    (selector selector' : JSValue) (el : nat) :
  timers page = [] ->
  querySelector doc selector = Normal (Some el) ->
  querySelector doc selector' = Normal (Some el) ->
  let final :=
    page_run doc page
      [highlight_command selector; highlight_command selector'; timer_fires; timer_fires] in
  background final el = "yellow" /\ timers final = [].
Proof.
  intros Ht Hq Hq' final. subst final. unfold page_run. cbn [fold_left].
  rewrite (highlight_step _ _ _ _ Hq), (highlight_step _ _ _ _ Hq').
  unfold highlight, background. simpl. rewrite Ht. simpl.
  by rewrite !lookup_insert_eq.
Qed.

Lemma page_step_observers doc page ev :
  observers (page_step doc page ev) =
  (observers page + if is_monitor_command ev then 1 else 0)%nat.
Proof.
  destruct ev as [|data| |changes| | |]; simpl.
  - unfold page_send. destruct (page_socket page); simpl; lia.
  - destruct data as [text|message]; simpl; [lia|].
    unfold handleWebSocketMessage, get.
    destruct (nullish message) eqn:Hm; simpl.
    { destruct message; try done; simpl; lia. }
    destruct (is_string (member message "message_type") "browser_command") eqn:Hb.
    + rewrite (is_string_true _ _ Hb). simpl. rewrite andb_false_r. simpl.
      destruct (handleBrowserCommand doc page (member message "content")) as [page'|e]
        eqn:Hh; simpl; [|lia].
      unfold handleBrowserCommand, page_send in Hh.
      destruct (get (member message "content") "command") as [command|e]; [|done].
      simpl in Hh.
      repeat match type of Hh with
             | context [if ?b then _ else _] => destruct b
             | context [querySelector ?d ?s] => destruct (querySelector d s) as [[el|]|]
             end; simpl in Hh; try done; injection Hh as <-; simpl; lia.
    + destruct (is_string (member message "message_type") "interface_action"); simpl;
        [|rewrite andb_false_r; simpl; lia].
      unfold handleInterfaceAction, get.
      destruct (nullish (member message "content")); simpl; [lia|].
      destruct (is_string (member (member message "content") "command")
                  "CAPTURE_SCREENSHOT") eqn:Hc.
      * rewrite (is_string_true _ _ Hc). simpl. lia.
      * destruct (is_string (member (member message "content") "command")
                    "MONITOR_CHANGES"); simpl; lia.
  - destruct (timers page) as [|[el colour] rest]; simpl; lia.
  - destruct (notify_sent (observers page) (dom_change doc changes) page)
      as (_ & _ & _ & -> & _). lia.
  - destruct (page_socket page); simpl; lia.
  - destruct (page_socket page); simpl; lia.
  - destruct (page_reconnects page); simpl; lia.
Qed.

(** X16. Monitoring only adds up. Each [MONITOR_CHANGES] command sets
    up one more observer and none is ever removed: after a run, a
    batch of changes of the page is reported in as many [dom_change]
    messages as [MONITOR_CHANGES] commands were received, each with
    the address of the page and the number of changes; unless the
    socket of the script is connecting (it has not opened yet, or the
    timer of [onclose] has made a new one), when every callback raises
    and nothing is reported. *)
Theorem changes_reported_once_per_monitor (doc : Document) (colours : gmap nat string)
    (evs : list PageEvent) (changes : nat) :
  let page := page_run doc (new_page colours) evs in
  page_sent (page_step doc page (mutations changes)) =
  (page_sent page ++
   if page_connecting page then []
   else
     replicate (length (filter (fun ev => is_monitor_command ev = true) evs))
       (JObj [("sender", JStr "browser-extension"); ("message_type", JStr "dom_change");
              ("content", JObj [("url", JStr (location_href doc));
                                ("changes", JNum (Z.of_nat changes))])]))%list.
Proof.
  intros page. simpl.
  destruct (notify_sent (observers page) (dom_change doc changes) page) as (-> & _).
  f_equal. destruct (page_connecting page); [done|]. f_equal.
  assert (H : forall p, observers (page_run doc p evs) =
                        (observers p
                         + length (filter (fun ev => is_monitor_command ev = true) evs))%nat).
  { induction evs as [|ev evs IH]; intros p; simpl; [lia|].
    rewrite IH, page_step_observers.
    destruct (is_monitor_command ev) eqn:Hev.
    - rewrite filter_cons_True by done. simpl. lia.
    - rewrite filter_cons_False by (by rewrite Hev). lia. }
  subst page. by rewrite H.
Qed.

(** * The background script *)


(** X18. What the context menu saves. For the menu item
    [addToKnowledge] the handler calls the API once to add a document:
    its title is the title of the tab, or ["Untitled"] when the tab is
    missing or its title is missing or empty; its content is the
    selected text, or the empty text when nothing is selected; its
    [url] is that of the tab; and its tags are [web-clip].  It shows
    the notification only when that call resolved; it never rejects;
    and for any other menu item it does nothing. *)
Theorem context_menu_saves_the_selection (api : ApiCall -> Outcome) (info tab : JSValue) :
  nullish info = false ->
  let title := optional_member tab "title" in
  let selection := member info "selectionText" in
  exists done,
    contextMenus_onClicked api info tab = Normal done /\
    (is_string (member info "menuItemId") "addToKnowledge" = false -> done = []) /\
    (is_string (member info "menuItemId") "addToKnowledge" = true ->
     exists document rest,
       done = called (knowledge_addDocument document) :: rest /\
       member document "title" = (if ToBoolean title then title else JStr "Untitled") /\
       member document "content" = (if ToBoolean selection then selection else JStr "") /\
       member document "url" = optional_member tab "url" /\
       member document "tags" = JArr [JStr "web-clip"] /\
       (forall document', called (knowledge_addDocument document') ∉ rest) /\
       (called notify_content_saved ∈ rest <->
        exists v, api (knowledge_addDocument document) = Resolved v)).
Proof.
  intros Hobj title selection. subst title selection.
  unfold contextMenus_onClicked, get. rewrite Hobj. simpl.
  destruct (is_string (member info "menuItemId") "addToKnowledge");
    [|eexists; split; [reflexivity|]; by split].
  eexists. split; [reflexivity|]. split; [done|]. intros _.
  eexists _, _. split; [reflexivity|]. simpl.
  do 4 (split; [done|]).
  destruct (api (knowledge_addDocument _)) as [v|e].
  - split.
    + intros document' Hin. apply elem_of_cons in Hin as [Hin|Hin]; [done|].
      destruct (api notify_content_saved); members Hin.
    + split; [by exists v|]. intros _. apply elem_of_cons. by left.
  - split.
    + intros document' Hin. members Hin.
    + split; [intros Hin; members Hin|by intros [v Hv]].
Qed.


(** ** Worked runs of the further properties *)

Lemma queue_waits_only_at_the_bound_witness :
  let ex := (run epoch (new_TaskExecutor two_slots) three_arrivals).1 in
  0 <= maxConcurrentTasks two_slots /\
  taskQueue ex <> [] /\
  activeTaskCount ex = maxConcurrentTasks two_slots.
Proof.
  assert (H : taskQueue (run epoch (new_TaskExecutor two_slots) three_arrivals).1 <> [])
    by (vm_compute; discriminate).
  split; [simpl; lia|]. split; [exact H|].
  exact (queue_waits_only_at_the_bound epoch two_slots three_arrivals
           ltac:(simpl; lia) H).
Defined.

Lemma counter_counts_the_running_witness :
  let r := run epoch (new_TaskExecutor two_slots) (onopen :: closed_while_running) in
  (reconnect ∉ closed_while_running) /\
  (forall t, Received t ∈ r.2 -> nullish t = false) /\
  activeTaskCount r.1 = Z.of_nat (size (suspended r.1)).
Proof.
  assert (Hno : reconnect ∉ closed_while_running).
  { intros H. unfold closed_while_running in H. members H. }
  assert (Hrec : forall t,
             Received t ∈ (run epoch (new_TaskExecutor two_slots)
                             (onopen :: closed_while_running)).2 ->
             nullish t = false).
  { intros t Ht.
    set (tr := (run epoch (new_TaskExecutor two_slots) (onopen :: closed_while_running)).2)
      in Ht.
    vm_compute in tr. subst tr. members Ht; reflexivity. }
  split; [exact Hno|]. split; [exact Hrec|].
  exact (counter_counts_the_running epoch two_slots closed_while_running Hno Hrec).
Defined.

Lemma nothing_runs_without_slots_witness :
  maxConcurrentTasks no_slots <= 0 /\
  let r := run epoch (new_TaskExecutor no_slots) three_tasks in
  started_tasks r.2 = [] /\ sent r.1 = [] /\ suspended r.1 = ∅ /\
  taskQueue r.1 = received_tasks r.2.
Proof.
  split; [simpl; lia|].
  apply (nothing_runs_without_slots epoch no_slots three_tasks). simpl. lia.
Defined.

Lemma other_messages_change_nothing_witness :
  let ex := (run epoch (new_TaskExecutor two_slots) three_arrivals).1 in
  is_task_request ping = false /\
  (step epoch ex (onmessage ping)).1 = ex /\
  Forall is_escape (step epoch ex (onmessage ping)).2.
Proof.
  split; [reflexivity|].
  exact (other_messages_change_nothing epoch _ ping eq_refl).
Defined.

Lemma message_answers_its_task_witness :
  let tr := (run epoch (new_TaskExecutor taskExecutor_config) click_on_nothing).2 in
  let m := click_result_message in
  Sent 0 m ∈ tr /\
  exists d n t o,
    Started 0 d n t ∈ tr /\ Settled 0 o ∈ tr /\
    (forall d' n' t', Started 0 d' n' t' ∈ tr -> t' = t) /\
    content_field m "task_id" = JSON_stringify (member t "id") /\
    status_of m = JStr (outcome_status o) /\
    content_field m "result" = JSON_stringify (outcome_result o) /\
    content_field m "error" = outcome_error o.
Proof.
  assert (H : Sent 0 click_result_message
              ∈ (run epoch (new_TaskExecutor taskExecutor_config) click_on_nothing).2)
    by listed.
  split; [exact H|].
  exact (message_answers_its_task epoch taskExecutor_config click_on_nothing 0 _ H).
Defined.

Lemma settled_task_is_answered_once_witness :
  let r := run epoch (new_TaskExecutor two_slots) three_arrivals in
  let o := Resolved (JStr "data:image/png;base64,AAAA") in
  let later := [settle 1 o; task_request (screenshot "T4"); settle 0 o] in
  suspended r.1 !! 0%nat = Some first_waiting /\
  final (s_resume first_waiting o) = Some o /\
  readyState r.1 <> CONNECTING /\
  let m := result_message epoch r.1 (member (s_task first_waiting) "id") o in
  let r' := run epoch (new_TaskExecutor two_slots) (three_arrivals ++ settle 0 o :: later) in
  results_of 0 r.2 = [] /\
  results_of 0 (step epoch r.1 (settle 0 o)).2 = [m] /\
  status_of m = JStr (outcome_status o) /\
  results_of 0 r'.2 = [m] /\
  m ∈ sent r'.1.
Proof.
  assert (H : suspended (run epoch (new_TaskExecutor two_slots) three_arrivals).1 !! 0%nat
              = Some first_waiting) by (vm_compute; reflexivity).
  assert (Hsock : readyState (run epoch (new_TaskExecutor two_slots) three_arrivals).1
                  <> CONNECTING) by (vm_compute; discriminate).
  split; [exact H|]. split; [reflexivity|]. split; [exact Hsock|].
  exact (settled_task_is_answered_once epoch two_slots three_arrivals 0 first_waiting
           (Resolved (JStr "data:image/png;base64,AAAA"))
           (Resolved (JStr "data:image/png;base64,AAAA"))
           [settle 1 (Resolved (JStr "data:image/png;base64,AAAA"));
            task_request (screenshot "T4");
            settle 0 (Resolved (JStr "data:image/png;base64,AAAA"))]
           H eq_refl Hsock).
Defined.


Lemma missing_parameters_fail_at_once_witness :
  let ex := taskExecutor_open in
  let task := no_parameters_task in
  activeTaskCount ex < maxConcurrentTasks (config ex) /\
  readyState ex <> CONNECTING /\
  nullish task = false /\
  known_type (member task "type") = true /\
  nullish (member task "parameters") = true /\
  exists e m,
    error_name e = "TypeError" /\
    m = result_message epoch ex (member task "id") (Rejected e) /\
    status_of m = JStr "failed" /\
    results_of 0 (handleTaskRequest epoch 0 ex task).2 = [m] /\
    handleTaskRequest epoch 0 ex task =
      after [Started 0 0 (activeTaskCount ex + 1) task; Settled 0 (Rejected e);
             Sent 0 m; Finished 0]
        (drainQueue epoch 0 (after_report m ex)) /\
    suspended (after_report m ex) = suspended ex /\
    activeTaskCount (after_report m ex) = activeTaskCount ex.
Proof.
  assert (Hsock : readyState taskExecutor_open <> CONNECTING) by (vm_compute; discriminate).
  split; [simpl; lia|]. split; [exact Hsock|]. split; [reflexivity|].
  split; [reflexivity|]. split; [reflexivity|].
  apply (missing_parameters_fail_at_once epoch 0 taskExecutor_open no_parameters_task);
    [simpl; lia|exact Hsock|reflexivity|reflexivity|reflexivity].
Defined.


Lemma page_answer_is_the_result_witness :
  let ex := taskExecutor_open in
  let args := [JStr "#missing"] in
  activeTaskCount ex < maxConcurrentTasks (config ex) /\
  readyState ex <> CONNECTING /\
  executeTask click_task = executeInPage ClickElement args /\
  ToBoolean (member tab_seven "id") = true /\
  let ex1 := (handleTaskRequest epoch 0 ex click_task).1 in
  let ex2 := (step epoch ex1 (settle 0 (Resolved (JArr [tab_seven])))).1 in
  let stamp := epoch (length (sent ex)) in
  (exists s, suspended ex2 !! 0%nat = Some s /\
             s_call s = tabs_sendMessage (member tab_seven "id") ClickElement args) /\
  sent ex2 = sent ex /\
  (forall v,
      results_of 0 (step epoch ex2 (settle 0 (Resolved v))).2 =
      [JSON_stringify
         (task_result (member click_task "id") "completed" (default_null v) JNull stamp)]) /\
  (forall e,
      results_of 0 (step epoch ex2 (settle 0 (Rejected e))).2 =
      [JSON_stringify
         (task_result (member click_task "id") "failed" JNull (JStr (error_message e))
            stamp)]).
Proof.
  assert (Hsock : readyState taskExecutor_open <> CONNECTING) by (vm_compute; discriminate).
  split; [simpl; lia|]. split; [exact Hsock|]. split; [reflexivity|].
  split; [reflexivity|].
  apply (page_answer_is_the_result epoch 0 taskExecutor_open click_task
           ClickElement [JStr "#missing"] tab_seven []);
    [simpl; lia|exact Hsock|reflexivity|reflexivity].
Defined.

Lemma network_task_outcome_witness :
  let ex := taskExecutor_open in
  let task := fetch_task in
  let parameters := JObj [("url", JStr "http://localhost:8000/api/status");
                          ("method", JStr "GET")] in
  activeTaskCount ex < maxConcurrentTasks (config ex) /\
  readyState ex <> CONNECTING /\
  is_string (member task "type") "NETWORK_INTERCEPT" = true /\
  get task "parameters" = Normal parameters /\
  nullish parameters = false /\
  let ex1 := (handleTaskRequest epoch 0 ex task).1 in
  let stamp := epoch (length (sent ex)) in
  let failed e :=
    JSON_stringify
      (task_result (member task "id") "failed" JNull (JStr (error_message e)) stamp) in
  (exists s, suspended ex1 !! 0%nat = Some s /\
             s_call s = fetch (member parameters "url") (member parameters "method")
                          (member parameters "headers")
                          (JSON_stringify (member parameters "body"))) /\
  (forall e, results_of 0 (step epoch ex1 (settle 0 (Rejected e))).2 = [failed e]) /\
  (forall response,
      let ex2 := (step epoch ex1 (settle 0 (Resolved response))).1 in
      (exists s, suspended ex2 !! 0%nat = Some s /\ s_call s = response_json response) /\
      (forall v,
          results_of 0 (step epoch ex2 (settle 0 (Resolved v))).2 =
          [JSON_stringify
             (task_result (member task "id") "completed" (default_null v) JNull stamp)]) /\
      (forall e, results_of 0 (step epoch ex2 (settle 0 (Rejected e))).2 = [failed e])).
Proof.
  assert (Hsock : readyState taskExecutor_open <> CONNECTING) by (vm_compute; discriminate).
  split; [simpl; lia|]. split; [exact Hsock|]. split; [reflexivity|].
  split; [reflexivity|]. split; [reflexivity|].
  apply (network_task_outcome epoch 0 taskExecutor_open fetch_task
           (JObj [("url", JStr "http://localhost:8000/api/status");
                  ("method", JStr "GET")]));
    [simpl; lia|exact Hsock|reflexivity|reflexivity|reflexivity].
Defined.

Lemma task_creator_request_is_not_understood_witness :
  let ex := taskExecutor_open in
  let request := JSONText (JSON_stringify (onSubmit 1700000000000 click_form)) in
  activeTaskCount ex < maxConcurrentTasks (config ex) /\
  readyState ex <> CONNECTING /\
  sendMessage true (onSubmit 1700000000000 click_form) = Some request /\
  let r := step epoch ex (onmessage request) in
  is_task_request request = true /\
  exists content m,
    member content "task_id" = JStr ("task-" ++ pretty 1700000000000) /\
    r = after [Received content; Started 0 0 (activeTaskCount ex + 1) content;
               Settled 0 (Rejected (Error "Unknown task type: undefined"));
               Sent 0 m; Finished 0]
          (drainQueue epoch 0 (after_report m ex)) /\
    results_of 0 r.2 = [m] /\
    status_of m = JStr "failed" /\
    content_field m "error" = JStr "Unknown task type: undefined" /\
    content_field m "task_id" = JUndefined.
Proof.
  assert (Hsock : readyState taskExecutor_open <> CONNECTING) by (vm_compute; discriminate).
  split; [simpl; lia|]. split; [exact Hsock|]. split; [reflexivity|].
  apply (task_creator_request_is_not_understood epoch taskExecutor_open 1700000000000
           click_form); [simpl; lia|exact Hsock|reflexivity].
Defined.

Lemma content_script_messages_have_the_envelope_witness :
  let m := dom_change one_button 2 in
  m ∈ page_sent (page_run one_button (new_page ∅) watched_page) /\
  from_browser_extension m.
Proof.
  assert (H : dom_change one_button 2
              ∈ page_sent (page_run one_button (new_page ∅) watched_page)) by listed.
  split; [exact H|].
  exact (content_script_messages_have_the_envelope one_button ∅ watched_page _ H).
Defined.

Lemma highlight_is_undone_witness :
  let page := new_page {[ 1%nat := "red" ]} in
  timers page = [] /\
  querySelector one_button (JStr "#go") = Normal (Some 1%nat) /\
  let lit := page_step one_button page (highlight_command (JStr "#go")) in
  let back := page_step one_button lit timer_fires in
  background lit 1 = "yellow" /\
  (forall element, background back element = background page element) /\
  timers back = [].
Proof.
  split; [reflexivity|]. split; [reflexivity|].
  apply (highlight_is_undone one_button (new_page {[ 1%nat := "red" ]}) (JStr "#go") 1);
    reflexivity.
Defined.

Lemma highlight_twice_stays_yellow_witness :
  let page := new_page {[ 1%nat := "red" ]} in
  timers page = [] /\
  querySelector one_button (JStr "#go") = Normal (Some 1%nat) /\
  let final :=
    page_run one_button page
      [highlight_command (JStr "#go"); highlight_command (JStr "#go");
       timer_fires; timer_fires] in
  background final 1 = "yellow" /\ timers final = [].
Proof.
  split; [reflexivity|]. split; [reflexivity|].
  apply (highlight_twice_stays_yellow one_button (new_page {[ 1%nat := "red" ]})
           (JStr "#go") (JStr "#go") 1); reflexivity.
Defined.


Lemma context_menu_saves_the_selection_witness :
  let info := menu_click in
  let tab := JObj [("id", JNum 7); ("title", JStr "")] in
  nullish info = false /\
  let title := optional_member tab "title" in
  let selection := member info "selectionText" in
  exists done,
    contextMenus_onClicked api_up info tab = Normal done /\
    (is_string (member info "menuItemId") "addToKnowledge" = false -> done = []) /\
    (is_string (member info "menuItemId") "addToKnowledge" = true ->
     exists document rest,
       done = called (knowledge_addDocument document) :: rest /\
       member document "title" = (if ToBoolean title then title else JStr "Untitled") /\
       member document "content" = (if ToBoolean selection then selection else JStr "") /\
       member document "url" = optional_member tab "url" /\
       member document "tags" = JArr [JStr "web-clip"] /\
       (forall document', called (knowledge_addDocument document') ∉ rest) /\
       (called notify_content_saved ∈ rest <->
        exists v, api_up (knowledge_addDocument document) = Resolved v)).
Proof.
  split; [reflexivity|].
  exact (context_menu_saves_the_selection api_up menu_click
           (JObj [("id", JNum 7); ("title", JStr "")]) eq_refl).
Defined.
